(** * chaos-profiler: the snapshot and report engine of [src/profile_operators.py]

  A shallow embedding of the profiler: the Python built-ins it relies on,
  the part of the standard [tracemalloc] module it calls, the classes
  [ProfileRunSettings], [StatisticRun], [StatisticDiffRun], [SnapshotRun],
  [SnapshotDiffRun], [ProfileRun] and the driver [profile_func], followed
  by the properties of the report that the specification states. *)

From Stdlib Require Import ZArith List String Ascii Bool Lia DecimalString.
Import ListNotations.

Set Implicit Arguments.
Local Open Scope Z_scope.

(* ================================================================== *)
(** ** Python built-ins *)
(* ================================================================== *)

Module Py.

(** Exceptions that the modelled code can raise.  [Raised msg] stands for
    whatever the profiled function itself raises. *)
Inductive exn : Type :=
| IndexError
| RuntimeError
| Raised (msg : string).

Definition result (A : Type) : Type := (exn + A)%type.

Definition nl : string := String (ascii_of_nat 10) EmptyString.
Definition tab : string := String (ascii_of_nat 9) EmptyString.

(** [sep.join(parts)] *)
Definition join (sep : string) (parts : list string) : string :=
  String.concat sep parts.

(** [str(n)] for an [int]. *)
Definition str_int (n : Z) : string := NilZero.string_of_int (Z.to_int n).

(** [str(b)] for a [bool]. *)
Definition str_bool (b : bool) : string :=
  if b then "True"%string else "False"%string.

(** [str(x)] for an [int | None]. *)
Definition str_opt_int (x : option Z) : string :=
  match x with
  | Some n => str_int n
  | None => "None"%string
  end.

(** Slice bounds are normalised as CPython does for a step of 1: a
    negative bound is counted from the end, then clamped to [0, len]. *)
Definition slice_bound {A} (xs : list A) (i : Z) : nat :=
  let n := Z.of_nat (List.length xs) in
  let j := if i <? 0 then i + n else i in
  Z.to_nat (Z.min n (Z.max 0 j)).

(** [xs[:stop]] *)
Definition slice_to {A} (xs : list A) (stop : Z) : list A :=
  firstn (slice_bound xs stop) xs.

(** [xs[start:]] *)
Definition slice_from {A} (xs : list A) (start : Z) : list A :=
  skipn (slice_bound xs start) xs.

(** [xs[i]], with [IndexError] out of range. *)
Definition getitem {A} (xs : list A) (i : Z) : result A :=
  let n := Z.of_nat (List.length xs) in
  let j := if i <? 0 then i + n else i in
  if (0 <=? j) && (j <? n) then
    match nth_error xs (Z.to_nat j) with
    | Some x => inr x
    | None => inl IndexError
    end
  else inl IndexError.

Fixpoint enumerate_from {A} (start : Z) (xs : list A) : list (Z * A) :=
  match xs with
  | [] => []
  | x :: rest => (start, x) :: enumerate_from (start + 1) rest
  end.

(** [enumerate(xs)] *)
Definition enumerate {A} (xs : list A) : list (Z * A) := enumerate_from 0 xs.

(** [range(a, b)] *)
Definition range (a b : Z) : list Z :=
  map (fun k => a + Z.of_nat k) (seq 0 (Z.to_nat (b - a))).

(** [sum(xs)] over [int]s. *)
Definition sum (xs : list Z) : Z := fold_left Z.add xs 0.

(** Whitespace removed by [str.strip()], on the ASCII range. *)
Definition isspace (c : ascii) : bool :=
  let n := nat_of_ascii c in
  ((9 <=? n) && (n <=? 13) || (28 <=? n) && (n <=? 32))%nat.

Fixpoint lstrip (s : string) : string :=
  match s with
  | EmptyString => EmptyString
  | String c rest => if isspace c then lstrip rest else s
  end.

Fixpoint rstrip (s : string) : string :=
  match s with
  | EmptyString => EmptyString
  | String c rest =>
      match rstrip rest with
      | EmptyString => if isspace c then EmptyString else String c EmptyString
      | kept => String c kept
      end
  end.

(** [s.strip()] *)
Definition strip (s : string) : string := rstrip (lstrip s).

(** [needle in hay] *)
Fixpoint contains (needle hay : string) : bool :=
  String.prefix needle hay ||
  match hay with
  | EmptyString => false
  | String _ rest => contains needle rest
  end.

(** [hay.count(needle)] for a needle that cannot overlap itself. *)
Fixpoint count (needle hay : string) : nat :=
  match hay with
  | EmptyString => O
  | String _ rest =>
      ((if String.prefix needle hay then 1 else 0) + count needle rest)%nat
  end.

(** Non-empty sequences: a tuple that always has a first element. *)
Record ne (A : Type) : Type := NE { ne_hd : A; ne_tl : list A }.

Definition ne_list {A} (s : ne A) : list A := ne_hd s :: ne_tl s.

(** [tuple(reversed(s))] *)
Definition ne_rev {A} (s : ne A) : ne A :=
  match rev (ne_tl s) with
  | [] => NE (ne_hd s) []
  | last :: before => NE last (before ++ [ne_hd s])
  end.

(** [s[:1]] *)
Definition ne_take1 {A} (s : ne A) : ne A := NE (ne_hd s) [].

(** Lexicographic combination of comparisons, as for tuples. *)
Definition lex (c1 c2 : comparison) : comparison :=
  match c1 with
  | Eq => c2
  | _ => c1
  end.

Fixpoint compare_list {A} (cmp : A -> A -> comparison) (xs ys : list A)
  : comparison :=
  match xs, ys with
  | [], [] => Eq
  | [], _ :: _ => Lt
  | _ :: _, [] => Gt
  | x :: xs', y :: ys' => lex (cmp x y) (compare_list cmp xs' ys')
  end.

(** [xs.sort(reverse=True, key=...)]: descending and stable, elements
    with equal keys keep their relative order. *)
Fixpoint insert_desc {A} (cmp : A -> A -> comparison) (x : A) (xs : list A)
  : list A :=
  match xs with
  | [] => [x]
  | y :: rest =>
      match cmp x y with
      | Lt => y :: insert_desc cmp x rest
      | _ => x :: xs
      end
  end.

Definition sort_desc {A} (cmp : A -> A -> comparison) (xs : list A) : list A :=
  fold_right (insert_desc cmp) [] xs.

End Py.

(* ================================================================== *)
(** ** The surroundings of the program *)
(* ================================================================== *)

(** What the program reads from the interpreter and the file system, and
    does not compute itself.  Every property below holds for any of them. *)
Class Runtime : Type := {
  (** [str(n / 1024)]: the text of the float quotient of an [int] by 1024. *)
  str_div_1024 : Z -> string;
  (** [str(names)] for a list of [str]. *)
  str_list : list string -> string;
  (** [linecache.getline(filename, lineno)]; it never raises and returns
      the empty string when the line cannot be read. *)
  getline : string -> Z -> string;
  (** [fnmatch.fnmatch(filename, pattern)], both normalised. *)
  fnmatch : string -> string -> bool;
  (** [tracemalloc.__file__] *)
  tracemalloc_file : string
}.

(* ================================================================== *)
(** ** The standard [tracemalloc] module, as far as the program calls it *)
(* ================================================================== *)

Module tracemalloc.
Import Py.

(** A frame tuple [(filename, lineno)]. *)
Definition Frame : Type := (string * Z)%type.

Definition Frame_eqb (a b : Frame) : bool :=
  String.eqb (fst a) (fst b) && Z.eqb (snd a) (snd b).

Definition Frame_compare (a b : Frame) : comparison :=
  lex (String.compare (fst a) (fst b)) (Z.compare (snd a) (snd b)).

(** The key types accepted by [Snapshot.statistics] and
    [Snapshot.compare_to]: the strings ['filename'], ['lineno'] and
    ['traceback']. *)
Inductive key_type : Type := filename | lineno | traceback.

(** A raw trace [(domain, size, frames, total_nframe)]; the frames run from
    the most recent to the oldest and there is always at least one. *)
Module Trace.
Record t : Type := Make
  { domain : Z; size : Z; frames : ne Frame; total_nframe : Z }.
End Trace.

Module Traceback.
Record t : Type := Make { frames : ne Frame; total_nframe : option Z }.

(** [Traceback(frames, total_nframe=None)] stores the frames reversed,
    oldest first. *)
Definition init (raw : ne Frame) (total : option Z) : t :=
  {| frames := ne_rev raw; total_nframe := total |}.

(** [self[0]] *)
Definition first (self : t) : Frame := ne_hd (frames self).

Fixpoint frames_eqb (xs ys : list Frame) : bool :=
  match xs, ys with
  | [], [] => true
  | x :: xs', y :: ys' => Frame_eqb x y && frames_eqb xs' ys'
  | _, _ => false
  end.

(** [__eq__] and [__hash__] look at the frames only. *)
Definition eqb (a b : t) : bool :=
  frames_eqb (ne_list (frames a)) (ne_list (frames b)).

Definition compare (a b : t) : comparison :=
  compare_list Frame_compare (ne_list (frames a)) (ne_list (frames b)).
End Traceback.

Module Statistic.
Record t : Type := Make { traceback : Traceback.t; size : Z; count : Z }.

(** Order of [_sort_key]: [(size, count, traceback)]. *)
Definition compare (a b : t) : comparison :=
  lex (Z.compare (size a) (size b))
      (lex (Z.compare (count a) (count b))
           (Traceback.compare (traceback a) (traceback b))).
End Statistic.

Module StatisticDiff.
Record t : Type := Make
  { traceback : Traceback.t;
    size : Z; size_diff : Z;
    count : Z; count_diff : Z }.

(** Order of [_sort_key]:
    [(abs(size_diff), size, abs(count_diff), count, traceback)]. *)
Definition compare (a b : t) : comparison :=
  lex (Z.compare (Z.abs (size_diff a)) (Z.abs (size_diff b)))
      (lex (Z.compare (size a) (size b))
           (lex (Z.compare (Z.abs (count_diff a)) (Z.abs (count_diff b)))
                (lex (Z.compare (count a) (count b))
                     (Traceback.compare (traceback a) (traceback b))))).
End StatisticDiff.

(** [Filter(inclusive, filename_pattern)], the other arguments left at
    their defaults ([lineno=None], [all_frames=False], [domain=None]). *)
Module Filter.
Record t : Type := Make { inclusive : bool; filename_pattern : string }.

Section Matching.
Context {R : Runtime}.

Definition _match_frame_impl (self : t) (file : string) (line : Z) : bool :=
  fnmatch file (filename_pattern self).

Definition _match_frame (self : t) (file : string) (line : Z) : bool :=
  xorb (_match_frame_impl self file line) (negb (inclusive self)).

Definition _match_traceback (self : t) (raw : ne Frame) : bool :=
  let '(file, line) := ne_hd raw in
  _match_frame self file line.

Definition _match (self : t) (trace : Trace.t) : bool :=
  _match_traceback self (Trace.frames trace).
End Matching.
End Filter.

Module Snapshot.
Record t : Type := Make { traces : list Trace.t; traceback_limit : Z }.

Section Filtering.
Context {R : Runtime}.

Definition _filter_trace (include_filters exclude_filters : list Filter.t)
    (trace : Trace.t) : bool :=
  (match include_filters with
   | [] => true
   | _ => existsb (fun f => Filter._match f trace) include_filters
   end)
  &&
  (match exclude_filters with
   | [] => true
   | _ => negb (existsb (fun f => negb (Filter._match f trace)) exclude_filters)
   end).

Definition filter_traces (self : t) (filters : list Filter.t) : t :=
  match filters with
  | [] => Make (traces self) (traceback_limit self)
  | _ =>
      let include_filters := filter Filter.inclusive filters in
      let exclude_filters :=
        filter (fun f => negb (Filter.inclusive f)) filters in
      Make (filter (_filter_trace include_filters exclude_filters) (traces self))
           (traceback_limit self)
  end.
End Filtering.

(** The traceback a trace is grouped under. *)
Definition group_traceback (key : key_type) (trace : Trace.t) : Traceback.t :=
  match key with
  | traceback => Traceback.init (Trace.frames trace) None
  | lineno => Traceback.init (ne_take1 (Trace.frames trace)) None
  | filename =>
      Traceback.init (NE (fst (ne_hd (Trace.frames trace)), 0) []) None
  end.

(** One step of the grouping loop: the dictionary [stats], in insertion
    order, gains the trace's size under its traceback. *)
Fixpoint add_trace (tb : Traceback.t) (size : Z) (stats : list Statistic.t)
  : list Statistic.t :=
  match stats with
  | [] => [Statistic.Make tb size 1]
  | stat :: rest =>
      if Traceback.eqb (Statistic.traceback stat) tb then
        Statistic.Make (Statistic.traceback stat)
                       (Statistic.size stat + size)
                       (Statistic.count stat + 1) :: rest
      else stat :: add_trace tb size rest
  end.

Definition _group_by (self : t) (key : key_type) : list Statistic.t :=
  fold_left
    (fun stats trace =>
       add_trace (group_traceback key trace) (Trace.size trace) stats)
    (traces self) [].

(** [self.statistics(key_type)] *)
Definition statistics (self : t) (key : key_type) : list Statistic.t :=
  sort_desc Statistic.compare (_group_by self key).

(** [old_group.pop(traceback, None)] *)
Fixpoint pop (tb : Traceback.t) (group : list Statistic.t)
  : option Statistic.t * list Statistic.t :=
  match group with
  | [] => (None, [])
  | stat :: rest =>
      if Traceback.eqb (Statistic.traceback stat) tb then (Some stat, rest)
      else let '(found, rest') := pop tb rest in (found, stat :: rest')
  end.

(** First loop of [_compare_grouped_stats]: one entry per group of the new
    snapshot; what is left of the old groups is returned with them. *)
Fixpoint compare_new (old_group new_group : list Statistic.t)
  : list StatisticDiff.t * list Statistic.t :=
  match new_group with
  | [] => ([], old_group)
  | stat :: rest =>
      let '(previous, old_left) := pop (Statistic.traceback stat) old_group in
      let entry :=
        match previous with
        | Some prev =>
            StatisticDiff.Make (Statistic.traceback stat)
              (Statistic.size stat) (Statistic.size stat - Statistic.size prev)
              (Statistic.count stat) (Statistic.count stat - Statistic.count prev)
        | None =>
            StatisticDiff.Make (Statistic.traceback stat)
              (Statistic.size stat) (Statistic.size stat)
              (Statistic.count stat) (Statistic.count stat)
        end in
      let '(entries, old_rest) := compare_new old_left rest in
      (entry :: entries, old_rest)
  end.

Definition _compare_grouped_stats (old_group new_group : list Statistic.t)
  : list StatisticDiff.t :=
  let '(entries, old_left) := compare_new old_group new_group in
  entries ++
  map (fun stat =>
         StatisticDiff.Make (Statistic.traceback stat)
           0 (- Statistic.size stat) 0 (- Statistic.count stat))
      old_left.

(** [self.compare_to(old_snapshot, key_type)]: the receiver is the new
    snapshot, the argument the old one. *)
Definition compare_to (self old_snapshot : t) (key : key_type)
  : list StatisticDiff.t :=
  let new_group := _group_by self key in
  let old_group := _group_by old_snapshot key in
  sort_desc StatisticDiff.compare (_compare_grouped_stats old_group new_group).
End Snapshot.

(** The tracer: whether it is tracing, its frame limit, and the blocks it
    currently traces. *)
Record World : Type := MakeWorld
  { tracing : bool; nframe : Z; traced : list Trace.t }.

(** [tracemalloc.start()]: nothing happens when already tracing. *)
Definition start (w : World) : World :=
  if tracing w then w else MakeWorld true 1 [].

(** [tracemalloc.stop()]: the traces are cleared. *)
Definition stop (w : World) : World := MakeWorld false (nframe w) [].

(** [tracemalloc.take_snapshot()]: fails unless tracing. *)
Definition take_snapshot (w : World) : result Snapshot.t :=
  if tracing w then inr (Snapshot.Make (traced w) (nframe w))
  else inl RuntimeError.

End tracemalloc.

(* ================================================================== *)
(** ** Running Python code: errors and the state of the tracer *)
(* ================================================================== *)

Import Py.
Import tracemalloc.

Definition bind {A B} (c : result A) (k : A -> result B) : result B :=
  match c with
  | inl e => inl e
  | inr a => k a
  end.

Notation "x <- c ;; k" := (bind c (fun x => k))
  (at level 61, c at next level, right associativity).

(** What a run does to the outside, in order: calls to the tracer and to
    the profiled function. *)
Inductive Event : Type :=
| Started
| Snapshotted (snapshot : Snapshot.t)
| Called
| Stopped.

Record Machine : Type := MakeMachine { world : World; log : list Event }.

(** A computation that reads and changes the tracer and may raise. *)
Definition M (A : Type) : Type := Machine -> result (A * Machine).

Definition ret {A} (a : A) : M A := fun m => inr (a, m).

Definition bindM {A B} (c : M A) (k : A -> M B) : M B :=
  fun m =>
    match c m with
    | inl e => inl e
    | inr (a, m') => k a m'
    end.

Notation "x <~ c ;; k" := (bindM c (fun x => k))
  (at level 61, c at next level, right associativity).
Notation "c ;;; k" := (bindM c (fun _ => k))
  (at level 61, right associativity).

(** [for x in xs: acc = body(x, acc)] *)
Fixpoint for_each {A B} (xs : list A) (body : A -> B -> M B) (acc : B) : M B :=
  match xs with
  | [] => ret acc
  | x :: rest => acc' <~ body x acc ;; for_each rest body acc'
  end.

Definition tracemalloc_start : M unit :=
  fun m => inr (tt, MakeMachine (start (world m)) (log m ++ [Started])).

Definition tracemalloc_take_snapshot : M Snapshot.t :=
  fun m =>
    snapshot <- take_snapshot (world m) ;;
    inr (snapshot, MakeMachine (world m) (log m ++ [Snapshotted snapshot])).

Definition tracemalloc_stop : M unit :=
  fun m => inr (tt, MakeMachine (stop (world m)) (log m ++ [Stopped])).

(** A Python callable taking no argument: what calling it does to the
    traced memory (or the exception it raises), and its [str]. *)
Record Callable : Type := MakeCallable
  { call : World -> result World; repr : string }.

(** [f()], the returned value dropped. *)
Definition invoke (f : Callable) : M unit :=
  fun m =>
    w <- call f (world m) ;;
    inr (tt, MakeMachine w (log m ++ [Called])).

(* ================================================================== *)
(** ** The program: [src/profile_operators.py] *)
(* ================================================================== *)

Module TraceKeyType.
Inductive t : Type := FILENAME | LINE_NUM | TRACEBACK.

Definition value (k : t) : key_type :=
  match k with
  | FILENAME => filename
  | LINE_NUM => lineno
  | TRACEBACK => traceback
  end.

Definition name (k : t) : string :=
  match k with
  | FILENAME => "FILENAME"
  | LINE_NUM => "LINE_NUM"
  | TRACEBACK => "TRACEBACK"
  end.
End TraceKeyType.

Module ProfileRunSettings.
Record t : Type := Make
  { func : Callable;
    func_file_names : list string;
    run_count : Z;
    key_type : TraceKeyType.t;
    limit : Z;
    exclusive_filter : bool }.

Definition default {A} (given : option A) (d : A) : A :=
  match given with
  | Some a => a
  | None => d
  end.

(** The constructor the [@dataclass] decorator generates: every field is
    stored as given, a missing one takes its default, nothing is checked. *)
Definition init (func : Callable) (func_file_names : list string)
    (run_count : option Z) (key_type : option TraceKeyType.t)
    (limit : option Z) (exclusive_filter : option bool) : result t :=
  inr (Make func func_file_names
            (default run_count 3)
            (default key_type TraceKeyType.LINE_NUM)
            (default limit 10)
            (default exclusive_filter true)).
End ProfileRunSettings.

Module StatisticRun.
Record t : Type := Make { position : Z; statistic : Statistic.t }.

Definition init (position : Z) (statistic : Statistic.t) : t :=
  Make (position + 1) statistic.

Section Render.
Context {R : Runtime}.
Local Open Scope string_scope.

Definition file_trace (self : t) : string :=
  let frame := Traceback.first (Statistic.traceback (statistic self)) in
  tab ++ "#" ++ str_int (position self) ++ ": "
      ++ str_div_1024 (Statistic.size (statistic self)) ++ "KiB -> "
      ++ fst frame ++ ":" ++ str_int (snd frame)
      ++ " (traces: "
      ++ str_opt_int (Traceback.total_nframe (Statistic.traceback (statistic self)))
      ++ ")".

(** [strip()] returns a [str], which is never [None]: the value tested by
    [line is not None] is always present. *)
Definition line_trace (self : t) : option string :=
  let frame := Traceback.first (Statistic.traceback (statistic self)) in
  let line : option string := Some (strip (getline (fst frame) (snd frame))) in
  match line with
  | Some text => Some (tab ++ tab ++ text)
  | None => None
  end.

(** [__str__] *)
Definition str (self : t) : string :=
  match line_trace self with
  | Some sub_line => file_trace self ++ nl ++ sub_line
  | None => file_trace self
  end.
End Render.
End StatisticRun.

Module StatisticDiffRun.
Record t : Type := Make { position : Z; statistic : StatisticDiff.t }.

Definition init (position : Z) (statistic : StatisticDiff.t) : t :=
  Make (position + 1) statistic.

Section Render.
Context {R : Runtime}.
Local Open Scope string_scope.

Definition file_trace (self : t) : string :=
  let frame := Traceback.first (StatisticDiff.traceback (statistic self)) in
  tab ++ "#" ++ str_int (position self) ++ ": "
      ++ str_div_1024 (StatisticDiff.size_diff (statistic self)) ++ "KiB -> "
      ++ fst frame ++ ":" ++ str_int (snd frame)
      ++ " (traces: "
      ++ str_opt_int
           (Traceback.total_nframe (StatisticDiff.traceback (statistic self)))
      ++ ")".

Definition line_trace (self : t) : option string :=
  let frame := Traceback.first (StatisticDiff.traceback (statistic self)) in
  let line : option string := Some (strip (getline (fst frame) (snd frame))) in
  match line with
  | Some text => Some (tab ++ tab ++ text)
  | None => None
  end.

(** [__str__] *)
Definition str (self : t) : string :=
  match line_trace self with
  | Some sub_line => file_trace self ++ nl ++ sub_line
  | None => file_trace self
  end.
End Render.
End StatisticDiffRun.

Module SnapshotRun.
Record t : Type := Make
  { iteration : Z;
    snapshot : Snapshot.t;
    settings : ProfileRunSettings.t }.

Section Views.
Context {R : Runtime}.
Local Open Scope string_scope.

Definition __inclusive_filtered (self : t) : Snapshot.t :=
  Snapshot.filter_traces (snapshot self)
    [ Filter.Make false tracemalloc_file;
      Filter.Make false "<frozen importlib._bootstrap>";
      Filter.Make false "<unknown>" ].

Definition __exclusive_filtered (self : t) : Snapshot.t :=
  Snapshot.filter_traces (snapshot self)
    (map (fun func_file_name => Filter.Make true func_file_name)
         (ProfileRunSettings.func_file_names (settings self))).

Definition filtered_snapshot (self : t) : Snapshot.t :=
  if ProfileRunSettings.exclusive_filter (settings self)
  then __exclusive_filtered self
  else __inclusive_filtered self.

(** The grouped statistics both lists are cut from. *)
Definition grouped_statistics (self : t) : list Statistic.t :=
  Snapshot.statistics (filtered_snapshot self)
    (TraceKeyType.value (ProfileRunSettings.key_type (settings self))).

Definition top_stats (self : t) : list StatisticRun.t :=
  map (fun '(i, stat) => StatisticRun.init i stat)
      (enumerate
         (slice_to (grouped_statistics self)
                   (ProfileRunSettings.limit (settings self)))).

Definition remaining_stats (self : t) : list StatisticRun.t :=
  map (fun '(i, stat) => StatisticRun.init i stat)
      (enumerate
         (slice_from (grouped_statistics self)
                     (ProfileRunSettings.limit (settings self)))).

Definition __total_size_line (stats : list StatisticRun.t) : string :=
  if (0 <? Z.of_nat (List.length stats))%Z then
    let total_size :=
      sum (map (fun stat => Statistic.size (StatisticRun.statistic stat)) stats) in
    str_div_1024 total_size ++ " KiB"
  else "".

Definition top_stats_summary (self : t) : string :=
  __total_size_line (top_stats self).

Definition remaining_stats_summary (self : t) : string :=
  __total_size_line (remaining_stats self).

(** [__str__] *)
Definition str (self : t) : string :=
  let title :=
    if negb (iteration self =? 0)%Z
    then nl ++ "## Snapshot Run #" ++ str_int (iteration self)
    else nl ++ "## Snapshot Before Run" in
  join nl
    [ title;
      "### Top " ++ str_int (ProfileRunSettings.limit (settings self))
                 ++ " Memory Hogs:";
      join nl (map StatisticRun.str (top_stats self));
      nl ++ "### Summary:";
      tab ++ "Top Total Size: " ++ top_stats_summary self;
      tab ++ "Remaining Total Size: " ++ remaining_stats_summary self ].
End Views.
End SnapshotRun.

Module SnapshotDiffRun.
Record t : Type := Make
  { iterations : Z * Z;
    diff : list StatisticDiff.t;
    limit : Z }.

(** [__init__(iterations, diff, limit=10)] *)
Definition init (iterations : Z * Z) (diff : list StatisticDiff.t)
    (limit : option Z) : t :=
  Make iterations diff (ProfileRunSettings.default limit 10).

Section Views.
Context {R : Runtime}.
Local Open Scope string_scope.

Definition top_stats (self : t) : list StatisticDiffRun.t :=
  map (fun '(i, stat) => StatisticDiffRun.init i stat)
      (enumerate (slice_to (diff self) (limit self))).

Definition remaining_stats (self : t) : list StatisticDiffRun.t :=
  map (fun '(i, stat) => StatisticDiffRun.init i stat)
      (enumerate (slice_from (diff self) (limit self))).

Definition __total_size_line (stats : list StatisticDiffRun.t) : string :=
  if (0 <? Z.of_nat (List.length stats))%Z then
    let total_size :=
      sum (map (fun stat =>
                  StatisticDiff.size_diff (StatisticDiffRun.statistic stat))
               stats) in
    str_div_1024 total_size ++ " KiB"
  else "".

Definition top_stats_summary (self : t) : string :=
  __total_size_line (top_stats self).

Definition remaining_stats_summary (self : t) : string :=
  __total_size_line (remaining_stats self).

(** [__str__] *)
Definition str (self : t) : string :=
  let title :=
    nl ++ "## Snapshot Comparison between #" ++ str_int (fst (iterations self))
       ++ " and #" ++ str_int (snd (iterations self)) in
  join nl
    [ title;
      "### Top " ++ str_int (limit self) ++ " Memory Hogs:";
      join nl (map StatisticDiffRun.str (top_stats self));
      nl ++ "### Summary:";
      tab ++ "Top Total Size: " ++ top_stats_summary self;
      tab ++ "Remaining Total Size: " ++ remaining_stats_summary self ].
End Views.
End SnapshotDiffRun.

Module ProfileRun.
Record t : Type := Make
  { snapshot_runs : list SnapshotRun.t;
    func_file_names : list string;
    func_name : string }.

Section Report.
Context {R : Runtime}.
Local Open Scope string_scope.

Definition __compare (first second : SnapshotRun.t) : SnapshotDiffRun.t :=
  SnapshotDiffRun.init
    (SnapshotRun.iteration first, SnapshotRun.iteration second)
    (Snapshot.compare_to
       (SnapshotRun.filtered_snapshot first)
       (SnapshotRun.filtered_snapshot second)
       (TraceKeyType.value
          (ProfileRunSettings.key_type (SnapshotRun.settings first))))
    None.

(** The loop over [enumerate(self.snapshot_runs)], the list [comparisons]
    as its accumulator. *)
Definition comparisons (self : t) : result (list SnapshotDiffRun.t) :=
  fold_left
    (fun acc '(i, _) =>
       comparisons <- acc ;;
       if negb (i =? 0)%Z then
         first <- getitem (snapshot_runs self) (i - 1) ;;
         second <- getitem (snapshot_runs self) i ;;
         inr (comparisons ++ [__compare first second])%list
       else inr comparisons)
    (enumerate (snapshot_runs self))
    (inr []).

(** [__str__] *)
Definition str (self : t) : result string :=
  first <- getitem (snapshot_runs self) 0 ;;
  let settings := SnapshotRun.settings first in
  comparisons <- comparisons self ;;
  inr (join nl
    [ "# Profile Run For " ++ func_name self;
      "```";
      "SETTINGS" ++ nl;
      "- Memory Limit: " ++ str_int (ProfileRunSettings.limit settings);
      "- Key Type: " ++ TraceKeyType.name (ProfileRunSettings.key_type settings);
      "- Exclusive Filter Set: "
        ++ str_bool (ProfileRunSettings.exclusive_filter settings);
      if ProfileRunSettings.exclusive_filter settings
      then "- File Filters Applied: "
             ++ str_list (ProfileRunSettings.func_file_names settings)
      else "";
      "```";
      join nl (map SnapshotRun.str (snapshot_runs self));
      "# Profile Comparisons For " ++ func_name self;
      join nl (map SnapshotRun.str (snapshot_runs self));
      nl ++ "# Profile Comparisons For " ++ func_name self;
      join nl (map SnapshotDiffRun.str comparisons) ]).
End Report.
End ProfileRun.

Definition profile_func (settings : ProfileRunSettings.t) : M ProfileRun.t :=
  tracemalloc_start ;;;
  first <~ tracemalloc_take_snapshot ;;
  let initial_snapshot := SnapshotRun.Make 0 first settings in
  snapshot_runs <~
    for_each (range 1 (ProfileRunSettings.run_count settings + 1))
      (fun i snapshot_runs =>
         invoke (ProfileRunSettings.func settings) ;;;
         taken <~ tracemalloc_take_snapshot ;;
         ret (snapshot_runs ++ [SnapshotRun.Make i taken settings]))
      [initial_snapshot] ;;
  tracemalloc_stop ;;;
  ret (ProfileRun.Make snapshot_runs
         (ProfileRunSettings.func_file_names settings)
         (repr (ProfileRunSettings.func settings))).

(* ================================================================== *)
(** ** Vocabulary of the properties *)
(* ================================================================== *)

(** Consecutive pairs of a list, given the element before it (if any). *)
Fixpoint adjacent {A} (previous : option A) (xs : list A) : list (A * A) :=
  match xs with
  | [] => []
  | x :: rest =>
      match previous with
      | Some p => (p, x) :: adjacent (Some x) rest
      | None => adjacent (Some x) rest
      end
  end.

(** A profiled function that returns normally and leaves the tracer on. *)
Definition well_behaved (f : Callable) : Prop :=
  forall w, tracing w = true ->
            exists w', call f w = inr w' /\ tracing w' = true.

(** The events of the capture of a list of snapshot runs: the first one is
    taken directly, every later one right after one call. *)
Definition capture_events (runs : list SnapshotRun.t) : list Event :=
  match runs with
  | [] => []
  | initial :: later =>
      Snapshotted (SnapshotRun.snapshot initial)
      :: flat_map (fun run => [Called; Snapshotted (SnapshotRun.snapshot run)])
                  later
  end.

Definition is_call (e : Event) : bool :=
  match e with
  | Called => true
  | _ => false
  end.

(** How often the profiled function was called in a sequence of events. *)
Definition calls (events : list Event) : nat :=
  List.length (filter is_call events).

(** The ranks carried by a list of entries. *)
Definition ranks (entries : list StatisticRun.t) : list Z :=
  map StatisticRun.position entries.

(** The same settings with another run count. *)
Definition with_run_count (settings : ProfileRunSettings.t) (n : Z)
  : ProfileRunSettings.t :=
  ProfileRunSettings.Make
    (ProfileRunSettings.func settings)
    (ProfileRunSettings.func_file_names settings)
    n
    (ProfileRunSettings.key_type settings)
    (ProfileRunSettings.limit settings)
    (ProfileRunSettings.exclusive_filter settings).

(** The key a statistic is stored under: the frames of its traceback. *)
Definition group_key (stat : Statistic.t) : list Frame :=
  ne_list (Traceback.frames (Statistic.traceback stat)).

(** One round of the loop of [comparisons] over the runs [runs]. *)
Definition round {R : Runtime} (runs : list SnapshotRun.t)
    (acc : result (list SnapshotDiffRun.t)) (item : Z * SnapshotRun.t)
  : result (list SnapshotDiffRun.t) :=
  let '(i, _) := item in
  comparisons <- acc ;;
  if negb (i =? 0) then
    first <- getitem runs (i - 1) ;;
    second <- getitem runs i ;;
    inr (comparisons ++ [ProfileRun.__compare first second])
  else inr comparisons.

(** The file of the most recent frame of a trace, the one a filter looks
    at. *)
Definition trace_file (trace : Trace.t) : string :=
  fst (ne_hd (Trace.frames trace)).

(** The file an entry is rendered with: that of the first frame of its
    traceback. *)
Definition entry_file (entry : StatisticRun.t) : string :=
  fst (Traceback.first (Statistic.traceback (StatisticRun.statistic entry))).

(** The size an entry stands for. *)
Definition entry_size (entry : StatisticRun.t) : Z :=
  Statistic.size (StatisticRun.statistic entry).

(** The size difference an entry of a comparison stands for. *)
Definition entry_size_diff (entry : StatisticDiffRun.t) : Z :=
  StatisticDiff.size_diff (StatisticDiffRun.statistic entry).

(** A list of numbers that never goes up. *)
Fixpoint nonincreasing (xs : list Z) : Prop :=
  match xs with
  | [] => True
  | x :: rest =>
      match rest with
      | [] => True
      | y :: _ => y <= x
      end
      /\ nonincreasing rest
  end.

(** A value or an exception, as a computation that leaves the tracer
    alone. *)
Definition lift {A} (c : result A) : M A :=
  fun m =>
    match c with
    | inl e => inl e
    | inr a => inr (a, m)
    end.

(** The script [src/profile.py]: the profiled function and the files of
    the two modules it uses are what [test/run.py] provides; the text
    handed to [print] is the result. *)
Definition main {R : Runtime} (get_letters_and_numbers : Callable)
    (letters_file numbers_file : string) : M string :=
  settings <~
    lift (ProfileRunSettings.init get_letters_and_numbers
            [letters_file; numbers_file] None None None None) ;;
  profile_run <~ profile_func settings ;;
  lift (ProfileRun.str profile_run).

(* ================================================================== *)
(** ** Concrete inputs *)
(* ================================================================== *)

Module Sample.
Local Open Scope string_scope.

Fixpoint drop_trailing_zeros (s : string) : string :=
  match s with
  | EmptyString => EmptyString
  | String c rest =>
      match drop_trailing_zeros rest with
      | EmptyString =>
          if Ascii.eqb c "0" then EmptyString else String c EmptyString
      | kept => String c kept
      end
  end.

Fixpoint zeros (n : nat) : string :=
  match n with
  | O => ""
  | S k => "0" ++ zeros k
  end.

(** The decimal expansion of [n / 1024], which is what Python prints for
    the float as long as it has at most 15 significant digits. *)
Definition decimal_kib (n : Z) : string :=
  let a := Z.abs n in
  let digits := str_int ((a mod 1024) * 9765625) in
  let fraction :=
    drop_trailing_zeros (zeros (10 - String.length digits) ++ digits) in
  (if (n <? 0)%Z then "-" else "") ++ str_int (a / 1024) ++ "."
    ++ (if String.eqb fraction "" then "0" else fraction).

(** A runtime in which only line 3 of [work.py] can be read, file patterns
    have no wildcard, and file names need no escaping. *)
Definition runtime : Runtime :=
  {| str_div_1024 := decimal_kib;
     str_list := fun names =>
       "[" ++ join ", " (map (fun s => "'" ++ s ++ "'") names) ++ "]";
     getline := fun file line =>
       if String.eqb file "work.py" && (line =? 3)%Z
       then "    data = [0] * 1000" ++ nl
       else "";
     fnmatch := fun file pattern => String.eqb file pattern;
     tracemalloc_file := "/usr/lib/python3.12/tracemalloc.py" |}.

(** A block of [size] bytes allocated at [file:line]. *)
Definition block (file : string) (line : Z) (size : Z) : Trace.t :=
  Trace.Make 0 size (NE (file, line) []) 1.

(** A function that keeps one more KiB allocated at [work.py:3] on every
    call. *)
Definition grow : Callable :=
  MakeCallable
    (fun w => inr (MakeWorld (tracing w) (nframe w)
                             (block "work.py" 3 1024 :: traced w)))
    "<function grow>".

(** A function that raises. *)
Definition failing : Callable :=
  MakeCallable (fun _ => inl (Raised "boom")) "<function failing>".

Definition settings (run_count limit : Z) : ProfileRunSettings.t :=
  ProfileRunSettings.Make grow ["work.py"] run_count
                          TraceKeyType.LINE_NUM limit true.

(** The tracer stopped, nothing logged yet. *)
Definition idle : Machine := MakeMachine (MakeWorld false 1 []) [].

(** Two consecutive snapshot runs: the group of [work.py:3] holds 1 KiB in
    the first and 2 KiB in the second. *)
Definition before_grow : SnapshotRun.t :=
  SnapshotRun.Make 0 (Snapshot.Make [block "work.py" 3 1024] 1) (settings 1 10).

Definition after_grow : SnapshotRun.t :=
  SnapshotRun.Make 1
    (Snapshot.Make [block "work.py" 3 1024; block "work.py" 3 1024] 1)
    (settings 1 10).

Definition grown : ProfileRun.t :=
  ProfileRun.Make [before_grow; after_grow] ["work.py"] "<function grow>".

(** The group of [work.py:3]. *)
Definition work_line : Traceback.t :=
  Traceback.Make (NE ("work.py", 3%Z) []) None.

(** A snapshot run with two groups, cut after the first. *)
Definition two_groups : SnapshotRun.t :=
  SnapshotRun.Make 1
    (Snapshot.Make [block "work.py" 3 2048; block "work.py" 7 512] 1)
    (settings 1 1).

(** The same snapshot with nothing in the top list. *)
Definition zero_limit : SnapshotRun.t :=
  SnapshotRun.Make 1 (SnapshotRun.snapshot two_groups) (settings 1 0).

(** An entry whose source line cannot be read. *)
Definition unreadable : StatisticRun.t :=
  StatisticRun.init 0
    (Statistic.Make (Traceback.Make (NE ("<string>", 1%Z) []) None) 2048 1).

(** The run of [two_groups] with no file name in its settings. *)
Definition no_names : SnapshotRun.t :=
  SnapshotRun.Make 1 (SnapshotRun.snapshot two_groups)
    (ProfileRunSettings.Make grow [] 1 TraceKeyType.LINE_NUM 10 true).

(** A block whose origin the tracer does not know. *)
Definition unknown_block : Trace.t := block "<unknown>" 0 64.

(** A run seen without the exclusive filter, one of its blocks of unknown
    origin. *)
Definition system_wide : SnapshotRun.t :=
  SnapshotRun.Make 1
    (Snapshot.Make [block "work.py" 3 2048; unknown_block] 1)
    (ProfileRunSettings.Make grow ["work.py"] 1 TraceKeyType.LINE_NUM 10 false).

(** A run taken before anything was allocated. *)
Definition nothing_yet : SnapshotRun.t :=
  SnapshotRun.Make 0 (Snapshot.Make [] 1) (settings 1 10).

(** The first entry of [two_groups]. *)
Definition largest_entry : StatisticRun.t :=
  StatisticRun.Make 1 (Statistic.Make work_line 2048 1).

(** The settings of a run whose function raises. *)
Definition failing_settings : ProfileRunSettings.t :=
  ProfileRunSettings.Make failing [] 1 TraceKeyType.LINE_NUM 10 true.
End Sample.

(* ================================================================== *)
(** ** Strings *)
(* ================================================================== *)

Lemma append_length (s t : string) :
  String.length (s ++ t) = (String.length s + String.length t)%nat.
Proof. induction s as [|c s IH]; simpl; [easy|]. now rewrite IH. Qed.

Lemma append_assoc (s t u : string) :
  ((s ++ t) ++ u = s ++ (t ++ u))%string.
Proof. induction s as [|c s IH]; simpl; [easy|]. now rewrite IH. Qed.

Lemma append_empty_r (s : string) : (s ++ "" = s)%string.
Proof. induction s as [|c s IH]; simpl; [easy|]. now rewrite IH. Qed.

(* ================================================================== *)
(** ** Slices and enumeration *)
(* ================================================================== *)

Section Slices.
Variable A : Type.
Implicit Types (xs : list A) (i : Z).

Lemma slice_partition xs i : slice_to xs i ++ slice_from xs i = xs.
Proof. unfold slice_to, slice_from. apply firstn_skipn. Qed.

Lemma slice_bound_le xs i : (slice_bound xs i <= List.length xs)%nat.
Proof. unfold slice_bound. destruct (i <? 0); lia. Qed.

Lemma slice_lengths xs i :
  (List.length (slice_to xs i) + List.length (slice_from xs i)
   = List.length xs)%nat.
Proof.
  rewrite <- (slice_partition xs i) at 3. now rewrite length_app.
Qed.

Lemma slice_to_zero xs : slice_to xs 0 = [].
Proof. unfold slice_to, slice_bound. simpl. now replace (Z.to_nat _) with O by lia. Qed.

Lemma slice_from_zero xs : slice_from xs 0 = xs.
Proof. unfold slice_from, slice_bound. simpl. now replace (Z.to_nat _) with O by lia. Qed.

Lemma enumerate_from_values k xs : map snd (enumerate_from k xs) = xs.
Proof.
  revert k. induction xs as [|x rest IH]; intros k; simpl; [easy|].
  now rewrite IH.
Qed.

Lemma enumerate_from_indices k xs :
  map fst (enumerate_from k xs) = range k (k + Z.of_nat (List.length xs)).
Proof.
  unfold range. revert k.
  induction xs as [|x rest IH]; intros k.
  - simpl. now replace (Z.to_nat _) with O by lia.
  - simpl List.length.
    replace (Z.to_nat (k + Z.of_nat (S (List.length rest)) - k))
      with (S (List.length rest)) by lia.
    simpl. f_equal; [lia|].
    rewrite IH.
    replace (Z.to_nat (k + 1 + Z.of_nat (List.length rest) - (k + 1)))
      with (List.length rest) by lia.
    rewrite <- seq_shift, map_map.
    apply map_ext. intros j. lia.
Qed.

Lemma enumerate_from_length k xs :
  List.length (enumerate_from k xs) = List.length xs.
Proof. now rewrite <- (length_map snd), enumerate_from_values. Qed.
End Slices.

Lemma range_shift a b : map (fun i => i + 1) (range a b) = range (a + 1) (b + 1).
Proof.
  unfold range. rewrite map_map.
  replace (b + 1 - (a + 1)) with (b - a) by lia.
  apply map_ext. intros k. lia.
Qed.

Lemma range_length a b : List.length (range a b) = Z.to_nat (b - a).
Proof. unfold range. now rewrite length_map, length_seq. Qed.

(* ================================================================== *)
(** ** Entries of a snapshot run *)
(* ================================================================== *)

Section Entries.
Context {R : Runtime}.

Lemma entries_statistics (stats : list Statistic.t) :
  map StatisticRun.statistic
      (map (fun '(i, stat) => StatisticRun.init i stat) (enumerate stats))
  = stats.
Proof.
  rewrite map_map. unfold enumerate.
  rewrite <- (enumerate_from_values 0 stats) at 2.
  apply map_ext. now intros [i stat].
Qed.

Lemma entries_ranks (stats : list Statistic.t) :
  ranks (map (fun '(i, stat) => StatisticRun.init i stat) (enumerate stats))
  = range 1 (Z.of_nat (List.length stats) + 1).
Proof.
  unfold ranks, enumerate. rewrite map_map.
  transitivity (map (fun i => i + 1) (map fst (enumerate_from 0 stats))).
  - rewrite map_map. apply map_ext. now intros [i stat].
  - rewrite enumerate_from_indices, range_shift. reflexivity.
Qed.

Lemma entries_length (stats : list Statistic.t) :
  List.length (map (fun '(i, stat) => StatisticRun.init i stat) (enumerate stats))
  = List.length stats.
Proof. unfold enumerate. now rewrite length_map, enumerate_from_length. Qed.

(** The two lists together have as many entries as there are groups. *)
Lemma top_remaining_length (run : SnapshotRun.t) :
  (List.length (SnapshotRun.top_stats run)
   + List.length (SnapshotRun.remaining_stats run)
   = List.length (SnapshotRun.grouped_statistics run))%nat.
Proof.
  unfold SnapshotRun.top_stats, SnapshotRun.remaining_stats.
  rewrite !entries_length. apply slice_lengths.
Qed.

(** The ranks of [top_stats] count up from 1. *)
Lemma top_stats_ranks (run : SnapshotRun.t) :
  ranks (SnapshotRun.top_stats run)
  = range 1 (Z.of_nat (List.length (SnapshotRun.top_stats run)) + 1).
Proof.
  unfold SnapshotRun.top_stats. now rewrite entries_ranks, entries_length.
Qed.

(** The ranks of [remaining_stats] count up from 1 as well: each list is
    enumerated on its own. *)
Lemma remaining_stats_ranks (run : SnapshotRun.t) :
  ranks (SnapshotRun.remaining_stats run)
  = range 1 (Z.of_nat (List.length (SnapshotRun.remaining_stats run)) + 1).
Proof.
  unfold SnapshotRun.remaining_stats. now rewrite entries_ranks, entries_length.
Qed.

(** C9: for every snapshot run and every integer [limit], negative ones
    included, the statistics of [top_stats] followed by those of
    [remaining_stats] are, element for element and in order, the grouped
    statistics of the filtered snapshot. *)
Theorem split_is_partition (run : SnapshotRun.t) :
  map StatisticRun.statistic (SnapshotRun.top_stats run)
  ++ map StatisticRun.statistic (SnapshotRun.remaining_stats run)
  = Snapshot.statistics
      (SnapshotRun.filtered_snapshot run)
      (TraceKeyType.value
         (ProfileRunSettings.key_type (SnapshotRun.settings run))).
Proof.
  unfold SnapshotRun.top_stats, SnapshotRun.remaining_stats.
  rewrite !entries_statistics. apply slice_partition.
Qed.

(** C8: with [limit = 0] the top entries of every snapshot run are empty,
    the remaining entries hold every group of the filtered snapshot, and
    the summary of the top entries is the empty string, not the text of a
    zero size. *)
Theorem zero_limit_views (run : SnapshotRun.t) :
  ProfileRunSettings.limit (SnapshotRun.settings run) = 0 ->
  SnapshotRun.top_stats run = []
  /\ map StatisticRun.statistic (SnapshotRun.remaining_stats run)
     = SnapshotRun.grouped_statistics run
  /\ List.length (SnapshotRun.remaining_stats run)
     = List.length (SnapshotRun.grouped_statistics run)
  /\ SnapshotRun.top_stats_summary run = EmptyString
  /\ SnapshotRun.top_stats_summary run <> (str_div_1024 0 ++ " KiB")%string.
Proof.
  intros Hlimit.
  assert (Htop : SnapshotRun.top_stats run = []).
  { unfold SnapshotRun.top_stats. rewrite Hlimit, slice_to_zero. reflexivity. }
  repeat split.
  - exact Htop.
  - unfold SnapshotRun.remaining_stats.
    rewrite Hlimit, slice_from_zero. apply entries_statistics.
  - unfold SnapshotRun.remaining_stats.
    rewrite Hlimit, slice_from_zero. apply entries_length.
  - unfold SnapshotRun.top_stats_summary. rewrite Htop. reflexivity.
  - unfold SnapshotRun.top_stats_summary. rewrite Htop.
    cbn [SnapshotRun.__total_size_line List.length Z.of_nat Z.ltb Z.compare].
    intros Heq. apply (f_equal String.length) in Heq.
    rewrite append_length in Heq. simpl in Heq. lia.
Qed.
End Entries.

(** C8 at a run with two groups and [limit = 0]. *)
Lemma zero_limit_views_witness :
  SnapshotRun.top_stats (R := Sample.runtime) Sample.zero_limit = []
  /\ map StatisticRun.statistic
         (SnapshotRun.remaining_stats (R := Sample.runtime) Sample.zero_limit)
     = SnapshotRun.grouped_statistics (R := Sample.runtime) Sample.zero_limit
  /\ List.length
       (SnapshotRun.remaining_stats (R := Sample.runtime) Sample.zero_limit)
     = List.length
         (SnapshotRun.grouped_statistics (R := Sample.runtime) Sample.zero_limit)
  /\ SnapshotRun.top_stats_summary (R := Sample.runtime) Sample.zero_limit
     = EmptyString
  /\ SnapshotRun.top_stats_summary (R := Sample.runtime) Sample.zero_limit
     <> (str_div_1024 (Runtime := Sample.runtime) 0 ++ " KiB")%string.
Proof.
  apply (zero_limit_views (R := Sample.runtime) Sample.zero_limit). reflexivity.
Defined.

(** C2 at a snapshot run with two groups and [limit = 1]: the list lengths
    add up to the number of groups, but the ranks of [top_stats] followed
    by those of [remaining_stats] are 1, 1 and not 1, 2. *)
Theorem ranks_restart_in_remaining :
  (List.length (SnapshotRun.top_stats (R := Sample.runtime) Sample.two_groups)
   + List.length
       (SnapshotRun.remaining_stats (R := Sample.runtime) Sample.two_groups)
   = List.length
       (SnapshotRun.grouped_statistics (R := Sample.runtime) Sample.two_groups))%nat
  /\ List.length
       (SnapshotRun.grouped_statistics (R := Sample.runtime) Sample.two_groups)
     = 2%nat
  /\ ranks (SnapshotRun.top_stats (R := Sample.runtime) Sample.two_groups
            ++ SnapshotRun.remaining_stats (R := Sample.runtime) Sample.two_groups)
     = [1; 1]
  /\ ranks (SnapshotRun.top_stats (R := Sample.runtime) Sample.two_groups
            ++ SnapshotRun.remaining_stats (R := Sample.runtime) Sample.two_groups)
     <> range 1 (2 + 1).
Proof.
  repeat split; try reflexivity.
  vm_compute. discriminate.
Qed.

(* ================================================================== *)
(** ** Settings *)
(* ================================================================== *)

(** C3, as stated, fails: a negative [run_count] and a negative [limit] are
    accepted, the construction raises nothing. *)
Lemma negative_settings_accepted :
  ~ exists e,
      ProfileRunSettings.init Sample.grow [] (Some (-1)) None (Some (-5)) None
      = inl e.
Proof. intros [e He]. discriminate He. Qed.

(** C3, amended: constructing the settings never fails; every field is
    stored as given, negative counts and limits included, a missing field
    takes its default (3 runs, grouping by line, limit 10, exclusive
    filter), and the construction touches nothing else. *)
Theorem settings_construction_total
    (func : Callable) (names : list string) (run_count : option Z)
    (key_type : option TraceKeyType.t) (limit : option Z)
    (exclusive_filter : option bool) :
  exists settings,
    ProfileRunSettings.init func names run_count key_type limit exclusive_filter
    = inr settings
    /\ ProfileRunSettings.func settings = func
    /\ ProfileRunSettings.func_file_names settings = names
    /\ ProfileRunSettings.run_count settings
       = match run_count with Some n => n | None => 3 end
    /\ ProfileRunSettings.key_type settings
       = match key_type with Some k => k | None => TraceKeyType.LINE_NUM end
    /\ ProfileRunSettings.limit settings
       = match limit with Some n => n | None => 10 end
    /\ ProfileRunSettings.exclusive_filter settings
       = match exclusive_filter with Some b => b | None => true end.
Proof.
  eexists. split; [reflexivity|].
  destruct run_count, key_type, limit, exclusive_filter; repeat split.
Qed.

(* ================================================================== *)
(** ** Rendering of an entry *)
(* ================================================================== *)

Section EntryText.
Context {R : Runtime}.

Lemma line_trace_present (entry : StatisticRun.t) :
  StatisticRun.line_trace entry
  = Some (tab ++ tab
          ++ strip (getline
                      (fst (Traceback.first
                              (Statistic.traceback (StatisticRun.statistic entry))))
                      (snd (Traceback.first
                              (Statistic.traceback (StatisticRun.statistic entry))))))%string.
Proof. reflexivity. Qed.

(** C6 on the code: when the line of an entry cannot be read ([getline]
    gives the empty string), the entry is still rendered with a second
    line, made of two tabs, after its file-trace line. *)
Theorem unresolved_line_keeps_sub_line (entry : StatisticRun.t) :
  getline
    (fst (Traceback.first (Statistic.traceback (StatisticRun.statistic entry))))
    (snd (Traceback.first (Statistic.traceback (StatisticRun.statistic entry))))
  = EmptyString ->
  StatisticRun.line_trace entry = Some (tab ++ tab)%string
  /\ StatisticRun.str entry
     = (StatisticRun.file_trace entry ++ nl ++ tab ++ tab)%string
  /\ StatisticRun.str entry <> StatisticRun.file_trace entry.
Proof.
  intros Hline.
  assert (Htrace : StatisticRun.line_trace entry = Some (tab ++ tab)%string).
  { rewrite line_trace_present, Hline. reflexivity. }
  assert (Hstr : StatisticRun.str entry
                 = (StatisticRun.file_trace entry ++ nl ++ tab ++ tab)%string).
  { unfold StatisticRun.str. rewrite Htrace. reflexivity. }
  repeat split; trivial.
  rewrite Hstr. intros Heq.
  apply (f_equal String.length) in Heq.
  rewrite append_length in Heq. simpl in Heq. lia.
Qed.
End EntryText.

(** C6 at an entry of [<string>:1], a file that cannot be read. *)
Lemma unresolved_line_keeps_sub_line_witness :
  StatisticRun.line_trace (R := Sample.runtime) Sample.unreadable
  = Some (tab ++ tab)%string
  /\ StatisticRun.str (R := Sample.runtime) Sample.unreadable
     = (StatisticRun.file_trace (R := Sample.runtime) Sample.unreadable
        ++ nl ++ tab ++ tab)%string
  /\ StatisticRun.str (R := Sample.runtime) Sample.unreadable
     <> StatisticRun.file_trace (R := Sample.runtime) Sample.unreadable.
Proof.
  apply (unresolved_line_keeps_sub_line (R := Sample.runtime) Sample.unreadable).
  reflexivity.
Defined.

(* ================================================================== *)
(** ** Comparisons of a profile run *)
(* ================================================================== *)

Section Indexing.
Variable A : Type.
Implicit Types (xs front back : list A).

Lemma getitem_middle front x back :
  getitem (front ++ x :: back) (Z.of_nat (List.length front)) = inr x.
Proof.
  unfold getitem. rewrite length_app. simpl List.length.
  destruct (Z.ltb_spec (Z.of_nat (List.length front)) 0) as [Hneg|_]; [lia|].
  destruct (Z.leb_spec 0 (Z.of_nat (List.length front))) as [_|Hneg]; [|lia].
  destruct (Z.ltb_spec (Z.of_nat (List.length front))
                       (Z.of_nat (List.length front + S (List.length back))))
    as [_|Hlong]; [|lia].
  simpl. rewrite Nat2Z.id, nth_error_app2 by lia.
  now rewrite Nat.sub_diag.
Qed.

Lemma adjacent_some_length (p : A) xs :
  List.length (adjacent (Some p) xs) = List.length xs.
Proof.
  revert p. induction xs as [|x rest IH]; intros p; simpl; [easy|].
  now rewrite IH.
Qed.

Lemma adjacent_length xs :
  List.length (adjacent None xs) = (List.length xs - 1)%nat.
Proof.
  destruct xs as [|x rest]; simpl; [easy|].
  rewrite adjacent_some_length. lia.
Qed.

Lemma adjacent_some_nth (p : A) xs (i : nat) (a b : A) :
  nth_error (p :: xs) i = Some a ->
  nth_error (p :: xs) (S i) = Some b ->
  nth_error (adjacent (Some p) xs) i = Some (a, b).
Proof.
  revert p i. induction xs as [|x rest IH]; intros p i Ha Hb.
  - destruct i; simpl in Hb; discriminate.
  - destruct i as [|i].
    + simpl in *. congruence.
    + simpl. apply IH; assumption.
Qed.

Lemma adjacent_nth xs (i : nat) (a b : A) :
  nth_error xs i = Some a ->
  nth_error xs (S i) = Some b ->
  nth_error (adjacent None xs) i = Some (a, b).
Proof.
  destruct xs as [|x rest]; intros Ha Hb.
  - destruct i; discriminate.
  - simpl. now apply adjacent_some_nth.
Qed.
End Indexing.

Section Comparisons.
Context {R : Runtime}.

Lemma comparisons_rounds (report : ProfileRun.t) :
  ProfileRun.comparisons report
  = fold_left (round (ProfileRun.snapshot_runs report))
              (enumerate (ProfileRun.snapshot_runs report)) (inr []).
Proof.
  unfold ProfileRun.comparisons.
  generalize (inr [] : result (list SnapshotDiffRun.t)).
  generalize (enumerate (ProfileRun.snapshot_runs report)).
  induction l as [|[i run] rest IH]; intros acc; simpl; [easy|].
  apply IH.
Qed.

Lemma rounds_after (later : list SnapshotRun.t) :
  forall (front : list SnapshotRun.t) (p : SnapshotRun.t)
         (done : list SnapshotDiffRun.t),
    fold_left (round ((front ++ [p]) ++ later))
              (enumerate_from (Z.of_nat (List.length (front ++ [p]))) later)
              (inr done)
    = inr (done ++ map (fun '(a, b) => ProfileRun.__compare a b)
                       (adjacent (Some p) later)).
Proof.
  induction later as [|x rest IH]; intros front p done.
  - simpl. now rewrite app_nil_r.
  - simpl enumerate_from. simpl fold_left.
    assert (Hlen : Z.of_nat (List.length (front ++ [p]))
                   = Z.of_nat (List.length front) + 1).
    { rewrite length_app. simpl. lia. }
    destruct (Z.eqb_spec (Z.of_nat (List.length (front ++ [p]))) 0)
      as [Hzero|_]; [lia|].
    cbn [negb].
    replace ((front ++ [p]) ++ x :: rest) with (front ++ p :: x :: rest)
      by now rewrite <- app_assoc.
    replace (Z.of_nat (List.length (front ++ [p])) - 1)
      with (Z.of_nat (List.length front)) by lia.
    rewrite (getitem_middle front p (x :: rest)). cbn [bind].
    replace (front ++ p :: x :: rest) with ((front ++ [p]) ++ x :: rest)
      by now rewrite <- app_assoc.
    rewrite (getitem_middle (front ++ [p]) x rest). cbn [bind].
    replace ((front ++ [p]) ++ x :: rest) with (((front ++ [p]) ++ [x]) ++ rest)
      by now rewrite <- (app_assoc _ [x] rest).
    replace (Z.of_nat (List.length (front ++ [p])) + 1)
      with (Z.of_nat (List.length ((front ++ [p]) ++ [x])))
      by (rewrite (length_app _ [x]); simpl; lia).
    rewrite (IH (front ++ [p]) x). simpl.
    now rewrite <- app_assoc.
Qed.

(** [comparisons] never fails and pairs every run with the next one, the
    earlier run first. *)
Lemma comparisons_adjacent (report : ProfileRun.t) :
  ProfileRun.comparisons report
  = inr (map (fun '(a, b) => ProfileRun.__compare a b)
             (adjacent None (ProfileRun.snapshot_runs report))).
Proof.
  rewrite comparisons_rounds.
  destruct (ProfileRun.snapshot_runs report) as [|x rest]; [reflexivity|].
  unfold enumerate. simpl.
  exact (rounds_after rest [] x []).
Qed.

(** X21: the comparison at index [i] is the one of runs [i] and [i + 1]: its
    iterations are theirs in that order, and its entries are what
    [compare_to] gives with run [i] as receiver and run [i + 1] as
    argument. *)
Lemma comparisons_nth (report : ProfileRun.t) (i : nat)
    (first second : SnapshotRun.t) :
  nth_error (ProfileRun.snapshot_runs report) i = Some first ->
  nth_error (ProfileRun.snapshot_runs report) (S i) = Some second ->
  exists all,
    ProfileRun.comparisons report = inr all
    /\ nth_error all i
       = Some (SnapshotDiffRun.Make
                 (SnapshotRun.iteration first, SnapshotRun.iteration second)
                 (Snapshot.compare_to
                    (SnapshotRun.filtered_snapshot first)
                    (SnapshotRun.filtered_snapshot second)
                    (TraceKeyType.value
                       (ProfileRunSettings.key_type
                          (SnapshotRun.settings first))))
                 10).
Proof.
  intros Hfirst Hsecond. eexists. split; [apply comparisons_adjacent|].
  rewrite nth_error_map, (adjacent_nth _ _ Hfirst Hsecond). reflexivity.
Qed.

Lemma comparisons_length (report : ProfileRun.t) :
  exists all,
    ProfileRun.comparisons report = inr all
    /\ List.length all = (List.length (ProfileRun.snapshot_runs report) - 1)%nat.
Proof.
  eexists. split; [apply comparisons_adjacent|].
  now rewrite length_map, adjacent_length.
Qed.
End Comparisons.

(* ================================================================== *)
(** ** Groups of a snapshot and their comparison *)
(* ================================================================== *)

Lemma Frame_eqb_eq (a b : Frame) : Frame_eqb a b = true <-> a = b.
Proof.
  destruct a as [fa la], b as [fb lb]. unfold Frame_eqb. simpl.
  rewrite andb_true_iff, String.eqb_eq, Z.eqb_eq.
  split; [intros [-> ->]; reflexivity | intros [= -> ->]; now split].
Qed.

Lemma frames_eqb_eq (xs ys : list Frame) :
  Traceback.frames_eqb xs ys = true <-> xs = ys.
Proof.
  revert ys. induction xs as [|x xs IH]; intros [|y ys]; simpl;
    try (split; [discriminate|discriminate]); [easy|].
  rewrite andb_true_iff, Frame_eqb_eq, IH.
  split; [intros [-> ->]; reflexivity | intros [= -> ->]; now split].
Qed.

Lemma eqb_group_key (stat : Statistic.t) (tb : Traceback.t) :
  Traceback.eqb (Statistic.traceback stat) tb = true
  <-> group_key stat = ne_list (Traceback.frames tb).
Proof. unfold Traceback.eqb, group_key. apply frames_eqb_eq. Qed.

Section Sorting.
Variable A : Type.
Variable cmp : A -> A -> comparison.

Lemma insert_desc_In (x y : A) (xs : list A) :
  In y (insert_desc cmp x xs) <-> y = x \/ In y xs.
Proof.
  induction xs as [|z rest IH]; simpl.
  - intuition congruence.
  - destruct (cmp x z); simpl; rewrite ?IH; intuition congruence.
Qed.

Lemma sort_desc_In (y : A) (xs : list A) : In y (sort_desc cmp xs) <-> In y xs.
Proof.
  unfold sort_desc. induction xs as [|x rest IH]; simpl; [easy|].
  rewrite insert_desc_In, IH. intuition congruence.
Qed.
End Sorting.

Section Groups.

Lemma add_trace_keys (tb : Traceback.t) (size : Z) (stats : list Statistic.t) :
  map group_key (Snapshot.add_trace tb size stats)
  = if existsb (fun stat => Traceback.eqb (Statistic.traceback stat) tb) stats
    then map group_key stats
    else map group_key stats ++ [ne_list (Traceback.frames tb)].
Proof.
  induction stats as [|stat rest IH]; simpl; [reflexivity|].
  destruct (Traceback.eqb (Statistic.traceback stat) tb) eqn:Heq; simpl.
  - reflexivity.
  - rewrite IH. now destruct (existsb _ rest).
Qed.

Lemma add_trace_distinct (tb : Traceback.t) (size : Z) (stats : list Statistic.t) :
  NoDup (map group_key stats) ->
  NoDup (map group_key (Snapshot.add_trace tb size stats)).
Proof.
  intros Hstats. rewrite add_trace_keys.
  destruct (existsb _ stats) eqn:Hfound; [exact Hstats|].
  apply NoDup_app; [exact Hstats | repeat constructor; intros [] |].
  intros k Hin [<-|[]].
  apply in_map_iff in Hin. destruct Hin as (stat & Hkey & Hstat).
  rewrite <- Bool.not_true_iff_false, existsb_exists in Hfound.
  apply Hfound. exists stat. split; [exact Hstat|].
  now apply eqb_group_key.
Qed.

(** No two groups of a snapshot share their key. *)
Lemma group_by_distinct (snapshot : Snapshot.t) (key : key_type) :
  NoDup (map group_key (Snapshot._group_by snapshot key)).
Proof.
  unfold Snapshot._group_by.
  assert (Hgen : forall traces stats,
             NoDup (map group_key stats) ->
             NoDup (map group_key
                      (fold_left
                         (fun stats trace =>
                            Snapshot.add_trace (Snapshot.group_traceback key trace)
                                               (Trace.size trace) stats)
                         traces stats))).
  { induction traces as [|trace rest IH]; intros stats Hstats; simpl.
    - exact Hstats.
    - apply IH. now apply add_trace_distinct. }
  apply Hgen. constructor.
Qed.

Lemma pop_found (tb : Traceback.t) (group : list Statistic.t) (stat : Statistic.t) :
  NoDup (map group_key group) ->
  In stat group ->
  group_key stat = ne_list (Traceback.frames tb) ->
  fst (Snapshot.pop tb group) = Some stat.
Proof.
  induction group as [|s rest IH]; intros Hdistinct Hin Hkey; [destruct Hin|].
  simpl. inversion Hdistinct as [|k ks Hfresh Hrest]; subst.
  destruct (Traceback.eqb (Statistic.traceback s) tb) eqn:Heq.
  - simpl. destruct Hin as [->|Hin]; [reflexivity|].
    exfalso. apply Hfresh. apply eqb_group_key in Heq.
    rewrite Heq, <- Hkey. now apply in_map.
  - destruct Hin as [->|Hin].
    + apply eqb_group_key in Hkey. congruence.
    + specialize (IH Hrest Hin Hkey).
      destruct (Snapshot.pop tb rest) as [found rest']. exact IH.
Qed.

Lemma pop_keeps (tb : Traceback.t) (group : list Statistic.t) (stat : Statistic.t) :
  In stat group ->
  group_key stat <> ne_list (Traceback.frames tb) ->
  In stat (snd (Snapshot.pop tb group)).
Proof.
  induction group as [|s rest IH]; intros Hin Hkey; [destruct Hin|].
  simpl. destruct (Traceback.eqb (Statistic.traceback s) tb) eqn:Heq.
  - simpl. destruct Hin as [->|Hin]; [|exact Hin].
    apply eqb_group_key in Heq. contradiction.
  - destruct (Snapshot.pop tb rest) as [found rest'] eqn:Hpop. simpl in *.
    destruct Hin as [->|Hin]; [now left | right; now apply IH].
Qed.

Lemma pop_subset (tb : Traceback.t) (group : list Statistic.t) (stat : Statistic.t) :
  In stat (snd (Snapshot.pop tb group)) -> In stat group.
Proof.
  induction group as [|s rest IH]; simpl; [easy|].
  destruct (Traceback.eqb (Statistic.traceback s) tb).
  - simpl. now right.
  - destruct (Snapshot.pop tb rest) as [found rest']. simpl in *.
    intros [->|Hin]; [now left | right; now apply IH].
Qed.

Lemma pop_distinct (tb : Traceback.t) (group : list Statistic.t) :
  NoDup (map group_key group) ->
  NoDup (map group_key (snd (Snapshot.pop tb group))).
Proof.
  induction group as [|s rest IH]; intros Hdistinct; simpl; [constructor|].
  inversion Hdistinct as [|k ks Hfresh Hrest]; subst.
  destruct (Traceback.eqb (Statistic.traceback s) tb).
  - exact Hrest.
  - specialize (IH Hrest).
    destruct (Snapshot.pop tb rest) as [found rest'] eqn:Hpop. simpl in *.
    constructor; [|exact IH].
    intros Hin. apply Hfresh.
    apply in_map_iff in Hin. destruct Hin as (x & Hx & Hin).
    rewrite <- Hx. apply in_map.
    apply (@pop_subset tb rest). now rewrite Hpop.
Qed.

(** A group of both snapshots gets one entry, whose size difference is the
    size in the new snapshot minus the size in the old one. *)
Lemma compare_new_common (new_group : list Statistic.t) :
  forall (old_group : list Statistic.t) (a b : Statistic.t),
    NoDup (map group_key new_group) ->
    NoDup (map group_key old_group) ->
    In a new_group -> In b old_group -> group_key b = group_key a ->
    In (StatisticDiff.Make (Statistic.traceback a)
          (Statistic.size a) (Statistic.size a - Statistic.size b)
          (Statistic.count a) (Statistic.count a - Statistic.count b))
       (fst (Snapshot.compare_new old_group new_group)).
Proof.
  induction new_group as [|s rest IH];
    intros old_group a b Hnew Hold Ha Hb Hkey; [destruct Ha|].
  inversion Hnew as [|k ks Hfresh Hrest]; subst.
  simpl.
  destruct (Snapshot.pop (Statistic.traceback s) old_group)
    as [previous old_left] eqn:Hpop.
  destruct (Snapshot.compare_new old_left rest) as [entries old_rest] eqn:Hcmp.
  simpl. destruct Ha as [->|Ha].
  - left.
    assert (Hfound := @pop_found (Statistic.traceback a) _ _ Hold Hb Hkey).
    rewrite Hpop in Hfound. simpl in Hfound. now subst previous.
  - right.
    assert (Hother : group_key b <> ne_list (Traceback.frames (Statistic.traceback s))).
    { rewrite Hkey. intros Heq. apply Hfresh.
      change (ne_list (Traceback.frames (Statistic.traceback s)))
        with (group_key s) in Heq.
      rewrite <- Heq. now apply in_map. }
    assert (Hleft := @pop_keeps (Statistic.traceback s) _ _ Hb Hother).
    assert (Hdistinct := @pop_distinct (Statistic.traceback s) _ Hold).
    rewrite Hpop in Hleft, Hdistinct. simpl in Hleft, Hdistinct.
    specialize (IH old_left a b Hrest Hdistinct Ha Hleft Hkey).
    now rewrite Hcmp in IH.
Qed.

Lemma compare_to_common (new_snapshot old_snapshot : Snapshot.t)
    (key : key_type) (a b : Statistic.t) :
  In a (Snapshot.statistics new_snapshot key) ->
  In b (Snapshot.statistics old_snapshot key) ->
  group_key b = group_key a ->
  In (StatisticDiff.Make (Statistic.traceback a)
        (Statistic.size a) (Statistic.size a - Statistic.size b)
        (Statistic.count a) (Statistic.count a - Statistic.count b))
     (Snapshot.compare_to new_snapshot old_snapshot key).
Proof.
  unfold Snapshot.statistics, Snapshot.compare_to, Snapshot._compare_grouped_stats.
  rewrite !sort_desc_In. intros Ha Hb Hkey.
  assert (Hentries := @compare_new_common _ _ _ _
            (group_by_distinct new_snapshot key)
            (group_by_distinct old_snapshot key) Ha Hb Hkey).
  destruct (Snapshot.compare_new _ _) as [entries old_left].
  apply in_or_app. now left.
Qed.
End Groups.

Section Direction.
Context {R : Runtime}.

(** X22: in the comparison of two runs, a group present in both carries the
    size it has in the first run minus the size it has in the second: a
    group that grew from the first run to the second has a negative
    difference. *)
Lemma compare_direction (first second : SnapshotRun.t) (a b : Statistic.t) :
  In a (Snapshot.statistics
          (SnapshotRun.filtered_snapshot first)
          (TraceKeyType.value
             (ProfileRunSettings.key_type (SnapshotRun.settings first)))) ->
  In b (Snapshot.statistics
          (SnapshotRun.filtered_snapshot second)
          (TraceKeyType.value
             (ProfileRunSettings.key_type (SnapshotRun.settings first)))) ->
  group_key b = group_key a ->
  exists entry,
    In entry (SnapshotDiffRun.diff (ProfileRun.__compare first second))
    /\ StatisticDiff.traceback entry = Statistic.traceback a
    /\ StatisticDiff.size_diff entry = Statistic.size a - Statistic.size b
    /\ (Statistic.size a < Statistic.size b -> StatisticDiff.size_diff entry < 0).
Proof.
  intros Ha Hb Hkey.
  eexists. split; [exact (@compare_to_common _ _ _ _ _ Ha Hb Hkey)|].
  simpl. repeat split. lia.
Qed.
End Direction.

(** C1 on the code, at two runs between which the group of [work.py:3]
    grew from 1024 to 2048 bytes: the comparison of iterations 0 and 1
    carries that group with a size difference of -1024. *)
Theorem growth_reported_negative :
  Snapshot.statistics
    (SnapshotRun.filtered_snapshot (R := Sample.runtime) Sample.before_grow)
    lineno
  = [Statistic.Make Sample.work_line 1024 1]
  /\ Snapshot.statistics
       (SnapshotRun.filtered_snapshot (R := Sample.runtime) Sample.after_grow)
       lineno
     = [Statistic.Make Sample.work_line 2048 2]
  /\ ProfileRun.comparisons (R := Sample.runtime) Sample.grown
     = inr [SnapshotDiffRun.Make (0, 1)
              [StatisticDiff.Make Sample.work_line 1024 (-1024) 1 (-1)] 10].
Proof. repeat split. Qed.

(* ================================================================== *)
(** ** The driver [profile_func] *)
(* ================================================================== *)

Lemma start_tracing (w : World) : tracing (start w) = true.
Proof. unfold start. destruct (tracing w) eqn:H; [exact H|reflexivity]. Qed.

Lemma range_empty (a b : Z) : b <= a -> range a b = [].
Proof. intros H. unfold range. now replace (Z.to_nat (b - a)) with O by lia. Qed.

Lemma range_cons (a b : Z) : a < b -> range a b = a :: range (a + 1) b.
Proof.
  intros H. unfold range.
  replace (Z.to_nat (b - a)) with (S (Z.to_nat (b - (a + 1)))) by lia.
  cbn [seq map]. f_equal; [lia|].
  rewrite <- seq_shift, map_map.
  apply map_ext. intros k. lia.
Qed.

Lemma calls_capture (later : list SnapshotRun.t) :
  calls (flat_map (fun run => [Called; Snapshotted (SnapshotRun.snapshot run)])
                  later)
  = List.length later.
Proof.
  unfold calls. induction later as [|run rest IH]; simpl; [easy|].
  now rewrite IH.
Qed.

Lemma bindM_returns {A B} (c : M A) (k : A -> M B) (m : Machine)
    (a : A) (m' : Machine) :
  c m = inr (a, m') -> bindM c k m = k a m'.
Proof. intros H. unfold bindM. now rewrite H. Qed.

Section Driver.
Variable settings : ProfileRunSettings.t.

(** The loop appends one run per index, each taken right after one call. *)
Lemma capture_loop (indices : list Z) :
  well_behaved (ProfileRunSettings.func settings) ->
  forall (runs : list SnapshotRun.t) (m : Machine),
    tracing (world m) = true ->
    exists later m',
      for_each indices
        (fun i snapshot_runs =>
           invoke (ProfileRunSettings.func settings) ;;;
           taken <~ tracemalloc_take_snapshot ;;
           ret (snapshot_runs ++ [SnapshotRun.Make i taken settings]))
        runs m
      = inr (runs ++ later, m')
      /\ map SnapshotRun.iteration later = indices
      /\ log m' = log m
                  ++ flat_map
                       (fun run => [Called; Snapshotted (SnapshotRun.snapshot run)])
                       later
      /\ tracing (world m') = true.
Proof.
  intros Hfunc.
  induction indices as [|i rest IH]; intros runs m Hon.
  - exists [], m. simpl. unfold ret. now rewrite !app_nil_r.
  - destruct (Hfunc (world m) Hon) as (w' & Hcall & Hon').
    set (taken := Snapshot.Make (traced w') (nframe w')).
    set (m1 := MakeMachine w' ((log m ++ [Called]) ++ [Snapshotted taken])).
    assert (Hstep :
              (invoke (ProfileRunSettings.func settings) ;;;
               taken <~ tracemalloc_take_snapshot ;;
               ret (runs ++ [SnapshotRun.Make i taken settings])) m
              = inr (runs ++ [SnapshotRun.Make i taken settings], m1)).
    { unfold bindM, invoke, tracemalloc_take_snapshot, take_snapshot, ret.
      rewrite Hcall. simpl. rewrite Hon'. reflexivity. }
    destruct (IH (runs ++ [SnapshotRun.Make i taken settings]) m1 Hon')
      as (later & m' & Hloop & Hiter & Hlog & Hon'').
    exists (SnapshotRun.Make i taken settings :: later), m'.
    repeat split.
    + cbn [for_each]. rewrite (bindM_returns _ _ _ Hstep), Hloop.
      now rewrite <- app_assoc.
    + simpl. now rewrite Hiter.
    + rewrite Hlog. unfold m1. simpl. now rewrite <- !app_assoc.
    + exact Hon''.
Qed.
End Driver.

Section Runs.
Context {R : Runtime}.

(** C5: with [run_count = R >= 0] and a profiled function that returns,
    [profile_func] returns a report with [R + 1] snapshot runs, numbered 0
    to [R], and [R] comparisons; the first snapshot is taken before any
    call and each later one right after exactly one call, [R] calls in
    all, between the start and the stop of the tracer. *)
Theorem run_shape (settings : ProfileRunSettings.t) (m : Machine) :
  0 <= ProfileRunSettings.run_count settings ->
  well_behaved (ProfileRunSettings.func settings) ->
  exists report m' events,
    profile_func settings m = inr (report, m')
    /\ Z.of_nat (List.length (ProfileRun.snapshot_runs report))
       = ProfileRunSettings.run_count settings + 1
    /\ map SnapshotRun.iteration (ProfileRun.snapshot_runs report)
       = range 0 (ProfileRunSettings.run_count settings + 1)
    /\ (exists all,
          ProfileRun.comparisons report = inr all
          /\ Z.of_nat (List.length all) = ProfileRunSettings.run_count settings)
    /\ log m' = log m ++ events
    /\ events
       = Started :: capture_events (ProfileRun.snapshot_runs report) ++ [Stopped]
    /\ Z.of_nat (calls events) = ProfileRunSettings.run_count settings.
Proof.
  intros Hcount Hfunc.
  set (w0 := start (world m)).
  set (first := Snapshot.Make (traced w0) (nframe w0)).
  set (m0 := MakeMachine w0 ((log m ++ [Started]) ++ [Snapshotted first])).
  set (initial := SnapshotRun.Make 0 first settings).
  destruct (capture_loop settings
              (range 1 (ProfileRunSettings.run_count settings + 1))
              Hfunc [initial] m0 (start_tracing (world m)))
    as (later & m1 & Hloop & Hiter & Hlog & _).
  assert (Hlater : Z.of_nat (List.length later)
                   = ProfileRunSettings.run_count settings).
  { rewrite <- (length_map SnapshotRun.iteration), Hiter, range_length. lia. }
  exists (ProfileRun.Make ([initial] ++ later)
            (ProfileRunSettings.func_file_names settings)
            (repr (ProfileRunSettings.func settings))),
         (MakeMachine (stop (world m1)) (log m1 ++ [Stopped])),
         (Started :: capture_events ([initial] ++ later) ++ [Stopped]).
  repeat split.
  - unfold profile_func.
    rewrite (bindM_returns tracemalloc_start _ m
               (a := tt) (m' := MakeMachine w0 (log m ++ [Started])))
      by reflexivity.
    rewrite (bindM_returns tracemalloc_take_snapshot _ _ (a := first) (m' := m0))
      by (unfold tracemalloc_take_snapshot, take_snapshot; cbn [world log];
          unfold w0; rewrite start_tracing; reflexivity).
    rewrite (bindM_returns _ _ _ Hloop).
    reflexivity.
  - cbn [ProfileRun.snapshot_runs]. rewrite length_app. simpl List.length. lia.
  - cbn [ProfileRun.snapshot_runs]. rewrite map_app, Hiter.
    rewrite (@range_cons 0) by lia. reflexivity.
  - destruct (comparisons_length
                (ProfileRun.Make ([initial] ++ later)
                   (ProfileRunSettings.func_file_names settings)
                   (repr (ProfileRunSettings.func settings))))
      as (all & Hall & Hlen).
    exists all. split; [exact Hall|].
    rewrite Hlen. cbn [ProfileRun.snapshot_runs].
    rewrite length_app. simpl List.length. lia.
  - cbn [log]. rewrite Hlog. unfold m0. cbn [log].
    simpl. now rewrite <- !app_assoc.
  - unfold calls. simpl. rewrite filter_app. simpl. rewrite length_app. simpl.
    rewrite Nat.add_0_r. fold (calls (flat_map
      (fun run => [Called; Snapshotted (SnapshotRun.snapshot run)]) later)).
    rewrite calls_capture. exact Hlater.
Qed.

(** Without iterations the loop does nothing: one snapshot between the
    start and the stop of the tracer, and no call. *)
Lemma single_capture (settings : ProfileRunSettings.t) (m : Machine) :
  ProfileRunSettings.run_count settings <= 0 ->
  profile_func settings m
  = inr (ProfileRun.Make
           [SnapshotRun.Make 0
              (Snapshot.Make (traced (start (world m))) (nframe (start (world m))))
              settings]
           (ProfileRunSettings.func_file_names settings)
           (repr (ProfileRunSettings.func settings)),
         MakeMachine
           (stop (start (world m)))
           (log m
            ++ [Started;
                Snapshotted
                  (Snapshot.Make (traced (start (world m)))
                                 (nframe (start (world m))));
                Stopped])).
Proof.
  intros Hcount.
  unfold profile_func. rewrite range_empty by lia.
  unfold bindM, tracemalloc_start, tracemalloc_take_snapshot,
    take_snapshot, tracemalloc_stop, ret.
  cbn [world log]. rewrite (start_tracing (world m)). cbn [bind for_each].
  unfold ret. cbn [world log]. now rewrite <- !app_assoc.
Qed.

(** C10: with [run_count < 0], [profile_func] raises nothing, never calls
    the profiled function, and returns a report with the single snapshot
    run of iteration 0 and no comparison: the very runs, events and final
    state that [run_count = 0] gives. *)
Theorem negative_run_count (settings : ProfileRunSettings.t) (m : Machine) :
  ProfileRunSettings.run_count settings < 0 ->
  exists report m' first zero_report,
    profile_func settings m = inr (report, m')
    /\ ProfileRun.snapshot_runs report = [SnapshotRun.Make 0 first settings]
    /\ ProfileRun.comparisons report = inr []
    /\ log m' = log m ++ [Started; Snapshotted first; Stopped]
    /\ profile_func (with_run_count settings 0) m = inr (zero_report, m')
    /\ ProfileRun.snapshot_runs zero_report
       = [SnapshotRun.Make 0 first (with_run_count settings 0)]
    /\ ProfileRun.comparisons zero_report = inr []
    /\ ProfileRun.func_file_names zero_report = ProfileRun.func_file_names report
    /\ ProfileRun.func_name zero_report = ProfileRun.func_name report.
Proof.
  intros Hcount.
  do 4 eexists.
  split; [apply single_capture; lia|].
  split; [reflexivity|].
  split; [reflexivity|].
  split; [reflexivity|].
  split; [apply single_capture; simpl; lia|].
  repeat split.
Qed.
End Runs.

(** A profiled function that raises is not caught: the run raises what
    the function raised and returns no report. *)
Lemma failing_function_propagates :
  profile_func (ProfileRunSettings.Make Sample.failing [] 1
                                        TraceKeyType.LINE_NUM 10 true)
               Sample.idle
  = inl (Raised "boom").
Proof. reflexivity. Qed.

(** C5 with two iterations of [Sample.grow]. *)
Lemma run_shape_witness :
  exists report m' events,
    profile_func (Sample.settings 2 10) Sample.idle = inr (report, m')
    /\ Z.of_nat (List.length (ProfileRun.snapshot_runs report)) = 2 + 1
    /\ map SnapshotRun.iteration (ProfileRun.snapshot_runs report)
       = range 0 (2 + 1)
    /\ (exists all,
          ProfileRun.comparisons (R := Sample.runtime) report = inr all
          /\ Z.of_nat (List.length all) = 2)
    /\ log m' = log Sample.idle ++ events
    /\ events
       = Started :: capture_events (ProfileRun.snapshot_runs report) ++ [Stopped]
    /\ Z.of_nat (calls events) = 2.
Proof.
  apply (run_shape (R := Sample.runtime) (Sample.settings 2 10) Sample.idle).
  - simpl. lia.
  - intros w Hon. eexists. split; [reflexivity|exact Hon].
Defined.

(** C10 with [run_count = -2]. *)
Lemma negative_run_count_witness :
  exists report m' first zero_report,
    profile_func (Sample.settings (-2) 10) Sample.idle = inr (report, m')
    /\ ProfileRun.snapshot_runs report
       = [SnapshotRun.Make 0 first (Sample.settings (-2) 10)]
    /\ ProfileRun.comparisons (R := Sample.runtime) report = inr []
    /\ log m' = log Sample.idle ++ [Started; Snapshotted first; Stopped]
    /\ profile_func (with_run_count (Sample.settings (-2) 10) 0) Sample.idle
       = inr (zero_report, m')
    /\ ProfileRun.snapshot_runs zero_report
       = [SnapshotRun.Make 0 first (with_run_count (Sample.settings (-2) 10) 0)]
    /\ ProfileRun.comparisons (R := Sample.runtime) zero_report = inr []
    /\ ProfileRun.func_file_names zero_report = ProfileRun.func_file_names report
    /\ ProfileRun.func_name zero_report = ProfileRun.func_name report.
Proof.
  apply (negative_run_count (R := Sample.runtime) (Sample.settings (-2) 10)
                            Sample.idle).
  simpl. lia.
Defined.

(* ================================================================== *)
(** ** Text of the report *)
(* ================================================================== *)

(** C4 on the code, at the report of one iteration of [Sample.grow]: the
    rendering of each snapshot run occurs twice in the text, that of the
    comparison once. *)
Theorem snapshots_rendered_twice :
  exists report m' before after comparison text,
    profile_func (Sample.settings 1 10) Sample.idle = inr (report, m')
    /\ ProfileRun.snapshot_runs report = [before; after]
    /\ ProfileRun.comparisons (R := Sample.runtime) report = inr [comparison]
    /\ ProfileRun.str (R := Sample.runtime) report = inr text
    /\ count (SnapshotRun.str (R := Sample.runtime) before) text = 2%nat
    /\ count (SnapshotRun.str (R := Sample.runtime) after) text = 2%nat
    /\ count (SnapshotDiffRun.str (R := Sample.runtime) comparison) text = 1%nat
    /\ count "## Snapshot Before Run" text = 2%nat
    /\ count "## Snapshot Run #1" text = 2%nat
    /\ count "## Snapshot Comparison between #0 and #1" text = 1%nat.
Proof.
  do 6 eexists.
  split; [vm_compute; reflexivity|].
  split; [reflexivity|].
  split; [vm_compute; reflexivity|].
  split; [vm_compute; reflexivity|].
  repeat split; vm_compute; reflexivity.
Qed.

(** C7, as stated, fails: the report of a run without iterations has one
    snapshot run and no comparison, and its text still contains
    [Comparison], in the heading of the comparisons. *)
Lemma comparison_heading_without_iterations :
  exists report m' text,
    profile_func (Sample.settings 0 10) Sample.idle = inr (report, m')
    /\ List.length (ProfileRun.snapshot_runs report) = 1%nat
    /\ ProfileRun.comparisons (R := Sample.runtime) report = inr []
    /\ ProfileRun.str (R := Sample.runtime) report = inr text
    /\ contains "Comparison" text = true.
Proof.
  do 3 eexists.
  split; [vm_compute; reflexivity|].
  split; [reflexivity|].
  split; [reflexivity|].
  split; [vm_compute; reflexivity|].
  vm_compute. reflexivity.
Qed.

Section ReportText.
Context {R : Runtime}.
Local Open Scope string_scope.

(** The text of a report whose first run is known: the banner, the
    snapshot runs, a heading, the snapshot runs once more, the same
    heading after an empty line, and the comparisons. *)
Lemma report_layout (report : ProfileRun.t) (first : SnapshotRun.t)
    (later : list SnapshotRun.t) :
  ProfileRun.snapshot_runs report = first :: later ->
  ProfileRun.str report
  = inr (join nl
      [ "# Profile Run For " ++ ProfileRun.func_name report;
        "```";
        "SETTINGS" ++ nl;
        "- Memory Limit: "
          ++ str_int (ProfileRunSettings.limit (SnapshotRun.settings first));
        "- Key Type: "
          ++ TraceKeyType.name
               (ProfileRunSettings.key_type (SnapshotRun.settings first));
        "- Exclusive Filter Set: "
          ++ str_bool
               (ProfileRunSettings.exclusive_filter (SnapshotRun.settings first));
        if ProfileRunSettings.exclusive_filter (SnapshotRun.settings first)
        then "- File Filters Applied: "
               ++ str_list
                    (ProfileRunSettings.func_file_names
                       (SnapshotRun.settings first))
        else "";
        "```";
        join nl (map SnapshotRun.str (first :: later));
        "# Profile Comparisons For " ++ ProfileRun.func_name report;
        join nl (map SnapshotRun.str (first :: later));
        nl ++ "# Profile Comparisons For " ++ ProfileRun.func_name report;
        join nl (map SnapshotDiffRun.str
                   (map (fun '(a, b) => ProfileRun.__compare a b)
                        (adjacent (Some first) later))) ]).
Proof.
  intros Hruns. unfold ProfileRun.str.
  rewrite comparisons_adjacent, Hruns.
  reflexivity.
Qed.

(** C7, amended: with [run_count = 0] the report has exactly one snapshot
    run, of iteration 0, and no comparison; its text ends with the heading
    [# Profile Comparisons For <function>] followed by an empty body, so no
    comparison between snapshots is rendered under it. *)
Theorem no_iteration_report (settings : ProfileRunSettings.t) (m : Machine) :
  ProfileRunSettings.run_count settings = 0%Z ->
  exists report m' first head,
    profile_func settings m = inr (report, m')
    /\ ProfileRun.snapshot_runs report = [SnapshotRun.Make 0 first settings]
    /\ ProfileRun.comparisons report = inr []
    /\ ProfileRun.str report
       = inr (head ++ nl ++ nl ++ "# Profile Comparisons For "
                   ++ ProfileRun.func_name report ++ nl
                   ++ join nl (map SnapshotDiffRun.str [])).
Proof.
  intros Hcount.
  do 4 eexists.
  split; [apply single_capture; lia|].
  split; [reflexivity|].
  split; [reflexivity|].
  erewrite report_layout by reflexivity.
  cbn [adjacent map ProfileRun.func_name].
  unfold join at 1. cbn [String.concat].
  f_equal.
  rewrite <- !append_assoc.
  reflexivity.
Qed.
End ReportText.

(** C7, amended, at a run of [Sample.grow] without iterations. *)
Lemma no_iteration_report_witness :
  exists report m' first head,
    profile_func (Sample.settings 0 10) Sample.idle = inr (report, m')
    /\ ProfileRun.snapshot_runs report
       = [SnapshotRun.Make 0 first (Sample.settings 0 10)]
    /\ ProfileRun.comparisons (R := Sample.runtime) report = inr []
    /\ ProfileRun.str (R := Sample.runtime) report
       = inr (head ++ nl ++ nl ++ "# Profile Comparisons For "
                   ++ ProfileRun.func_name report ++ nl
                   ++ join nl (map (SnapshotDiffRun.str (R := Sample.runtime)) []))%string.
Proof.
  apply (no_iteration_report (R := Sample.runtime) (Sample.settings 0 10)
                             Sample.idle).
  reflexivity.
Defined.

(* ================================================================== *)
(** ** Filtering of a snapshot *)
(* ================================================================== *)

Section Filters.
Context {R : Runtime}.

Lemma allow_filters_inclusive (names : list string) :
  filter Filter.inclusive (map (fun name => Filter.Make true name) names)
  = map (fun name => Filter.Make true name) names.
Proof. induction names as [|n rest IH]; simpl; [easy|]. now rewrite IH. Qed.

Lemma allow_filters_not_exclusive (names : list string) :
  filter (fun f => negb (Filter.inclusive f))
         (map (fun name => Filter.Make true name) names)
  = [].
Proof. induction names as [|n rest IH]; simpl; [easy|exact IH]. Qed.

Lemma allow_filter_match (trace : Trace.t) (names : list string) :
  existsb (fun f => Filter._match f trace)
          (map (fun name => Filter.Make true name) names)
  = existsb (fun name => fnmatch (trace_file trace) name) names.
Proof.
  induction names as [|n rest IH]; simpl; [easy|].
  rewrite IH. f_equal.
  unfold Filter._match, Filter._match_traceback, Filter._match_frame,
    Filter._match_frame_impl, trace_file.
  destruct (ne_hd (Trace.frames trace)) as [file line]. simpl.
  now rewrite xorb_false_r.
Qed.

Lemma deny_filter_match (trace : Trace.t) (pattern : string) :
  Filter._match (Filter.Make false pattern) trace
  = negb (fnmatch (trace_file trace) pattern).
Proof.
  unfold Filter._match, Filter._match_traceback, Filter._match_frame,
    Filter._match_frame_impl, trace_file.
  destruct (ne_hd (Trace.frames trace)) as [file line]. simpl.
  now rewrite xorb_true_r.
Qed.

Lemma exclusive_filtered_traces (run : SnapshotRun.t) :
  ProfileRunSettings.exclusive_filter (SnapshotRun.settings run) = true ->
  ProfileRunSettings.func_file_names (SnapshotRun.settings run) <> [] ->
  SnapshotRun.filtered_snapshot run
  = Snapshot.Make
      (filter
         (fun trace =>
            existsb (fun name => fnmatch (trace_file trace) name)
                    (ProfileRunSettings.func_file_names
                       (SnapshotRun.settings run)))
         (Snapshot.traces (SnapshotRun.snapshot run)))
      (Snapshot.traceback_limit (SnapshotRun.snapshot run)).
Proof.
  intros Hmode Hnames.
  unfold SnapshotRun.filtered_snapshot. rewrite Hmode.
  unfold SnapshotRun.__exclusive_filtered, Snapshot.filter_traces.
  destruct (ProfileRunSettings.func_file_names (SnapshotRun.settings run))
    as [|name names] eqn:Hlist; [contradiction|].
  rewrite allow_filters_inclusive, allow_filters_not_exclusive.
  cbn [map]. f_equal.
  apply filter_ext. intros trace.
  unfold Snapshot._filter_trace. rewrite andb_true_r.
  exact (allow_filter_match trace (name :: names)).
Qed.

(** X1: with the exclusive filter and at least one file name, a trace is kept
    exactly when the file of its most recent frame matches one of the
    names; the kept traces stay in their order and the traceback limit is
    kept. *)
Theorem exclusive_filter_keeps_named_files (run : SnapshotRun.t) :
  ProfileRunSettings.exclusive_filter (SnapshotRun.settings run) = true ->
  ProfileRunSettings.func_file_names (SnapshotRun.settings run) <> [] ->
  Snapshot.traces (SnapshotRun.filtered_snapshot run)
  = filter
      (fun trace =>
         existsb (fun name => fnmatch (trace_file trace) name)
                 (ProfileRunSettings.func_file_names (SnapshotRun.settings run)))
      (Snapshot.traces (SnapshotRun.snapshot run))
  /\ Snapshot.traceback_limit (SnapshotRun.filtered_snapshot run)
     = Snapshot.traceback_limit (SnapshotRun.snapshot run)
  /\ forall trace,
       In trace (Snapshot.traces (SnapshotRun.filtered_snapshot run))
       <-> In trace (Snapshot.traces (SnapshotRun.snapshot run))
           /\ exists name,
                In name (ProfileRunSettings.func_file_names
                           (SnapshotRun.settings run))
                /\ fnmatch (trace_file trace) name = true.
Proof.
  intros Hmode Hnames.
  rewrite (exclusive_filtered_traces run Hmode Hnames).
  cbn [Snapshot.traces Snapshot.traceback_limit].
  split; [reflexivity|]. split; [reflexivity|].
  intros trace. rewrite filter_In, existsb_exists. tauto.
Qed.

(** X2: with the exclusive filter and no file name at all, nothing is filtered:
    every trace of the snapshot is kept. *)
Theorem exclusive_filter_without_names_keeps_all (run : SnapshotRun.t) :
  ProfileRunSettings.exclusive_filter (SnapshotRun.settings run) = true ->
  ProfileRunSettings.func_file_names (SnapshotRun.settings run) = [] ->
  SnapshotRun.filtered_snapshot run = SnapshotRun.snapshot run.
Proof.
  intros Hmode Hnames.
  unfold SnapshotRun.filtered_snapshot. rewrite Hmode.
  unfold SnapshotRun.__exclusive_filtered. rewrite Hnames.
  now destruct (SnapshotRun.snapshot run).
Qed.

(** X3: without the exclusive filter, a trace is kept exactly when the file of
    its most recent frame matches none of [tracemalloc.__file__],
    [<frozen importlib._bootstrap>] and [<unknown>]; the names of the
    settings play no part. *)
Theorem inclusive_filter_drops_tracer_frames (run : SnapshotRun.t) :
  ProfileRunSettings.exclusive_filter (SnapshotRun.settings run) = false ->
  forall trace,
    In trace (Snapshot.traces (SnapshotRun.filtered_snapshot run))
    <-> In trace (Snapshot.traces (SnapshotRun.snapshot run))
        /\ fnmatch (trace_file trace) tracemalloc_file = false
        /\ fnmatch (trace_file trace) "<frozen importlib._bootstrap>" = false
        /\ fnmatch (trace_file trace) "<unknown>" = false.
Proof.
  intros Hmode trace.
  unfold SnapshotRun.filtered_snapshot. rewrite Hmode.
  unfold SnapshotRun.__inclusive_filtered, Snapshot.filter_traces.
  cbn [filter Filter.inclusive negb Snapshot.traces].
  rewrite filter_In. unfold Snapshot._filter_trace.
  cbn [existsb andb]. rewrite !deny_filter_match, !negb_involutive, orb_false_r.
  rewrite negb_true_iff, !orb_false_iff. tauto.
Qed.
End Filters.

(* ================================================================== *)
(** ** What the entries of a snapshot run stand for *)
(* ================================================================== *)

Lemma sum_from (xs : list Z) (start : Z) :
  fold_left Z.add xs start = start + sum xs.
Proof.
  unfold sum. revert start.
  induction xs as [|x rest IH]; intros start; simpl; [lia|].
  rewrite (IH (start + x)), (IH x). lia.
Qed.

Lemma sum_cons (x : Z) (xs : list Z) : sum (x :: xs) = x + sum xs.
Proof. unfold sum. simpl. now rewrite sum_from. Qed.

Lemma sum_app (xs ys : list Z) : sum (xs ++ ys) = sum xs + sum ys.
Proof.
  induction xs as [|x rest IH]; simpl; [reflexivity|].
  rewrite !sum_cons, IH. lia.
Qed.

Section SortedLists.
Variable A : Type.
Variable cmp : A -> A -> comparison.
Variable weight : A -> Z.

Lemma insert_desc_sum (x : A) (xs : list A) :
  sum (map weight (insert_desc cmp x xs)) = weight x + sum (map weight xs).
Proof.
  induction xs as [|y rest IH]; simpl; [now rewrite sum_cons|].
  destruct (cmp x y); simpl; rewrite ?sum_cons, ?IH; lia.
Qed.

Lemma sort_desc_sum (xs : list A) :
  sum (map weight (sort_desc cmp xs)) = sum (map weight xs).
Proof.
  unfold sort_desc. induction xs as [|x rest IH]; simpl; [reflexivity|].
  now rewrite insert_desc_sum, sum_cons, IH.
Qed.

Hypothesis cmp_lt : forall x y, cmp x y = Lt -> weight x <= weight y.
Hypothesis cmp_ge : forall x y, cmp x y <> Lt -> weight y <= weight x.

Lemma nonincreasing_cons (x : Z) (xs : list Z) :
  nonincreasing xs -> (forall y, In y xs -> y <= x) -> nonincreasing (x :: xs).
Proof.
  intros Hxs Hbound. simpl. split; [|exact Hxs].
  destruct xs as [|y rest]; [exact I|]. apply Hbound. now left.
Qed.

Lemma nonincreasing_bound (x : Z) (xs : list Z) :
  nonincreasing (x :: xs) -> forall y, In y xs -> y <= x.
Proof.
  revert x. induction xs as [|z rest IH]; intros x Hsorted y Hin; [destruct Hin|].
  destruct Hsorted as [Hzx Hrest]. destruct Hin as [<-|Hin]; [exact Hzx|].
  specialize (IH z Hrest y Hin). lia.
Qed.

Lemma insert_desc_nonincreasing (x : A) (xs : list A) :
  nonincreasing (map weight xs) ->
  nonincreasing (map weight (insert_desc cmp x xs)).
Proof.
  induction xs as [|y rest IH]; intros Hsorted; [simpl; auto|].
  simpl insert_desc.
  destruct (cmp x y) eqn:Hcmp.
  - simpl map. apply nonincreasing_cons; [exact Hsorted|].
    intros w [<-|Hin].
    + apply cmp_ge. congruence.
    + assert (Hy := nonincreasing_bound Hsorted w Hin).
      assert (Hxy : weight y <= weight x) by (apply cmp_ge; congruence). lia.
  - simpl map. apply nonincreasing_cons.
    + apply IH. exact (proj2 Hsorted).
    + intros w Hin. apply in_map_iff in Hin. destruct Hin as (z & <- & Hz).
      apply insert_desc_In in Hz. destruct Hz as [->|Hz].
      * now apply cmp_lt.
      * apply (nonincreasing_bound Hsorted). now apply in_map.
  - simpl map. apply nonincreasing_cons; [exact Hsorted|].
    intros w [<-|Hin].
    + apply cmp_ge. congruence.
    + assert (Hy := nonincreasing_bound Hsorted w Hin).
      assert (Hxy : weight y <= weight x) by (apply cmp_ge; congruence). lia.
Qed.

Lemma sort_desc_nonincreasing (xs : list A) :
  nonincreasing (map weight (sort_desc cmp xs)).
Proof.
  unfold sort_desc. induction xs as [|x rest IH]; simpl; [exact I|].
  now apply insert_desc_nonincreasing.
Qed.
End SortedLists.

Lemma nonincreasing_firstn (n : nat) (xs : list Z) :
  nonincreasing xs -> nonincreasing (firstn n xs).
Proof.
  revert xs. induction n as [|n IH]; intros [|x rest] Hsorted; simpl; auto.
  split; [|apply IH; exact (proj2 Hsorted)].
  destruct n; [simpl; destruct rest; exact I|].
  destruct rest as [|y rest']; simpl; [exact I|exact (proj1 Hsorted)].
Qed.

Lemma nonincreasing_skipn (n : nat) (xs : list Z) :
  nonincreasing xs -> nonincreasing (skipn n xs).
Proof.
  revert xs. induction n as [|n IH]; intros [|x rest] Hsorted; simpl; auto.
  apply IH. exact (proj2 Hsorted).
Qed.

Lemma Statistic_compare_lt (a b : Statistic.t) :
  Statistic.compare a b = Lt -> Statistic.size a <= Statistic.size b.
Proof.
  unfold Statistic.compare, lex.
  destruct (Z.compare_spec (Statistic.size a) (Statistic.size b)); intros Hcmp;
    try lia; discriminate.
Qed.

Lemma Statistic_compare_ge (a b : Statistic.t) :
  Statistic.compare a b <> Lt -> Statistic.size b <= Statistic.size a.
Proof.
  unfold Statistic.compare, lex.
  destruct (Z.compare_spec (Statistic.size a) (Statistic.size b)); intros Hcmp;
    try lia. now elim Hcmp.
Qed.

Lemma StatisticDiff_compare_lt (a b : StatisticDiff.t) :
  StatisticDiff.compare a b = Lt ->
  Z.abs (StatisticDiff.size_diff a) <= Z.abs (StatisticDiff.size_diff b).
Proof.
  unfold StatisticDiff.compare, lex.
  destruct (Z.compare_spec (Z.abs (StatisticDiff.size_diff a))
                           (Z.abs (StatisticDiff.size_diff b))); intros Hcmp;
    try lia; discriminate.
Qed.

Lemma StatisticDiff_compare_ge (a b : StatisticDiff.t) :
  StatisticDiff.compare a b <> Lt ->
  Z.abs (StatisticDiff.size_diff b) <= Z.abs (StatisticDiff.size_diff a).
Proof.
  unfold StatisticDiff.compare, lex.
  destruct (Z.compare_spec (Z.abs (StatisticDiff.size_diff a))
                           (Z.abs (StatisticDiff.size_diff b))); intros Hcmp;
    try lia. now elim Hcmp.
Qed.

Lemma add_trace_sum (tb : Traceback.t) (size : Z) (stats : list Statistic.t) :
  sum (map Statistic.size (Snapshot.add_trace tb size stats))
  = sum (map Statistic.size stats) + size.
Proof.
  induction stats as [|stat rest IH]; simpl.
  - rewrite sum_cons. unfold sum. simpl. lia.
  - destruct (Traceback.eqb (Statistic.traceback stat) tb); simpl;
      rewrite !sum_cons, ?IH; lia.
Qed.

Lemma group_by_sum (snapshot : Snapshot.t) (key : key_type) :
  sum (map Statistic.size (Snapshot._group_by snapshot key))
  = sum (map Trace.size (Snapshot.traces snapshot)).
Proof.
  unfold Snapshot._group_by.
  assert (Hgen : forall traces stats,
             sum (map Statistic.size
                    (fold_left
                       (fun stats trace =>
                          Snapshot.add_trace (Snapshot.group_traceback key trace)
                                             (Trace.size trace) stats)
                       traces stats))
             = sum (map Statistic.size stats) + sum (map Trace.size traces)).
  { induction traces as [|trace rest IH]; intros stats; simpl.
    - unfold sum at 3. simpl. lia.
    - rewrite IH, add_trace_sum, sum_cons. lia. }
  rewrite Hgen. unfold sum at 1. simpl. reflexivity.
Qed.

Lemma add_trace_origin (tb : Traceback.t) (size : Z) (stats : list Statistic.t)
    (stat : Statistic.t) :
  In stat (Snapshot.add_trace tb size stats) ->
  Statistic.traceback stat = tb
  \/ exists before, In before stats
                    /\ Statistic.traceback stat = Statistic.traceback before.
Proof.
  induction stats as [|s rest IH]; simpl.
  - intros [<-|[]]. now left.
  - destruct (Traceback.eqb (Statistic.traceback s) tb).
    + intros [<-|Hin]; right; [exists s | exists stat]; simpl; auto.
    + intros [<-|Hin]; [right; exists s; auto|].
      destruct (IH Hin) as [Htb|(before & Hbefore & Htb)]; [now left|].
      right. exists before. auto.
Qed.

(** Every group of a snapshot is the group of one of its traces. *)
Lemma group_by_origin (snapshot : Snapshot.t) (key : key_type)
    (stat : Statistic.t) :
  In stat (Snapshot._group_by snapshot key) ->
  exists trace,
    In trace (Snapshot.traces snapshot)
    /\ Statistic.traceback stat = Snapshot.group_traceback key trace.
Proof.
  unfold Snapshot._group_by.
  assert (Hgen : forall traces stats,
             (forall trace, In trace traces ->
                            In trace (Snapshot.traces snapshot)) ->
             (forall s, In s stats ->
                        exists trace,
                          In trace (Snapshot.traces snapshot)
                          /\ Statistic.traceback s
                             = Snapshot.group_traceback key trace) ->
             forall s,
               In s (fold_left
                       (fun stats trace =>
                          Snapshot.add_trace (Snapshot.group_traceback key trace)
                                             (Trace.size trace) stats)
                       traces stats) ->
               exists trace,
                 In trace (Snapshot.traces snapshot)
                 /\ Statistic.traceback s = Snapshot.group_traceback key trace).
  { induction traces as [|trace rest IH]; intros stats Hsub Hstats s Hin.
    - now apply Hstats.
    - simpl in Hin. revert s Hin. apply IH.
      + intros t Ht. apply Hsub. now right.
      + intros s Hs. apply add_trace_origin in Hs.
        destruct Hs as [Htb|(before & Hbefore & Htb)].
        * exists trace. split; [apply Hsub; now left|exact Htb].
        * destruct (Hstats before Hbefore) as (t & Ht & Heq).
          exists t. split; [exact Ht|congruence]. }
  apply Hgen; [auto|intros s []].
Qed.

Section EntryValues.
Context {R : Runtime}.

Lemma top_stats_sizes (run : SnapshotRun.t) :
  map entry_size (SnapshotRun.top_stats run)
  = map Statistic.size
        (slice_to (SnapshotRun.grouped_statistics run)
                  (ProfileRunSettings.limit (SnapshotRun.settings run))).
Proof.
  unfold entry_size. rewrite <- (map_map StatisticRun.statistic Statistic.size).
  unfold SnapshotRun.top_stats. now rewrite entries_statistics.
Qed.

Lemma remaining_stats_sizes (run : SnapshotRun.t) :
  map entry_size (SnapshotRun.remaining_stats run)
  = map Statistic.size
        (slice_from (SnapshotRun.grouped_statistics run)
                    (ProfileRunSettings.limit (SnapshotRun.settings run))).
Proof.
  unfold entry_size. rewrite <- (map_map StatisticRun.statistic Statistic.size).
  unfold SnapshotRun.remaining_stats. now rewrite entries_statistics.
Qed.

(** X4: the sizes summed up for [Top Total Size] and for [Remaining Total
    Size] add up to the size of all traces of the filtered snapshot:
    grouping, ranking and the cut at [limit] lose and invent no byte,
    whatever the limit. *)
Theorem summaries_cover_filtered_memory (run : SnapshotRun.t) :
  sum (map entry_size (SnapshotRun.top_stats run))
  + sum (map entry_size (SnapshotRun.remaining_stats run))
  = sum (map Trace.size
             (Snapshot.traces (SnapshotRun.filtered_snapshot run))).
Proof.
  rewrite top_stats_sizes, remaining_stats_sizes.
  rewrite <- sum_app, <- map_app, slice_partition.
  unfold SnapshotRun.grouped_statistics, Snapshot.statistics.
  rewrite sort_desc_sum. apply group_by_sum.
Qed.

(** X5: the entries of [top_stats], followed by those of [remaining_stats],
    never go up in size: the top list holds the largest groups, largest
    first. *)
Theorem entries_ordered_by_size (run : SnapshotRun.t) :
  nonincreasing
    (map entry_size (SnapshotRun.top_stats run ++ SnapshotRun.remaining_stats run)).
Proof.
  rewrite map_app, top_stats_sizes, remaining_stats_sizes.
  rewrite <- map_app, slice_partition.
  unfold SnapshotRun.grouped_statistics, Snapshot.statistics.
  apply sort_desc_nonincreasing.
  - exact Statistic_compare_lt.
  - exact Statistic_compare_ge.
Qed.

(** X6: how many entries [top_stats] has: with a limit of at least 0, the
    limit or the number of groups if there are fewer; with a negative
    limit, all groups but the last [-limit], none if there are not that
    many.  It never has more entries than a non-negative limit. *)
Theorem top_stats_count (run : SnapshotRun.t) :
  Z.of_nat (List.length (SnapshotRun.top_stats run))
  = if ProfileRunSettings.limit (SnapshotRun.settings run) <? 0
    then Z.max 0 (Z.of_nat (List.length (SnapshotRun.grouped_statistics run))
                  + ProfileRunSettings.limit (SnapshotRun.settings run))
    else Z.min (ProfileRunSettings.limit (SnapshotRun.settings run))
               (Z.of_nat (List.length (SnapshotRun.grouped_statistics run))).
Proof.
  unfold SnapshotRun.top_stats. rewrite entries_length.
  unfold slice_to. rewrite length_firstn.
  unfold slice_bound.
  destruct (Z.ltb_spec (ProfileRunSettings.limit (SnapshotRun.settings run)) 0);
    lia.
Qed.

Lemma total_size_line_empty (stats : list StatisticRun.t) :
  SnapshotRun.__total_size_line stats = EmptyString <-> stats = [].
Proof.
  unfold SnapshotRun.__total_size_line.
  destruct stats as [|stat rest].
  - simpl. tauto.
  - destruct (Z.ltb_spec 0 (Z.of_nat (List.length (stat :: rest)))) as [_|Hlen];
      [|simpl in Hlen; lia].
    split; [|discriminate].
    intros Heq. apply (f_equal String.length) in Heq.
    rewrite append_length in Heq. simpl in Heq. lia.
Qed.

(** X7: a size summary is the empty string exactly when its list of entries
    is empty; a list of entries whose sizes add up to 0 still gets a
    number. *)
Theorem summary_empty_iff_no_entries (run : SnapshotRun.t) :
  (SnapshotRun.top_stats_summary run = EmptyString
   <-> SnapshotRun.top_stats run = [])
  /\ (SnapshotRun.remaining_stats_summary run = EmptyString
      <-> SnapshotRun.remaining_stats run = []).
Proof.
  unfold SnapshotRun.top_stats_summary, SnapshotRun.remaining_stats_summary.
  split; apply total_size_line_empty.
Qed.

Lemma first_frame_of_group (key : TraceKeyType.t) (trace : Trace.t) :
  key <> TraceKeyType.TRACEBACK ->
  fst (Traceback.first
         (Snapshot.group_traceback (TraceKeyType.value key) trace))
  = trace_file trace.
Proof. destruct key; intros Hkey; [reflexivity|reflexivity|congruence]. Qed.

(** X8: with the exclusive filter, at least one file name, and groups by file
    or by line, every entry of [top_stats] is rendered with a file that
    matches one of the names. *)
Theorem exclusive_entries_in_named_files (run : SnapshotRun.t)
    (entry : StatisticRun.t) :
  ProfileRunSettings.exclusive_filter (SnapshotRun.settings run) = true ->
  ProfileRunSettings.func_file_names (SnapshotRun.settings run) <> [] ->
  ProfileRunSettings.key_type (SnapshotRun.settings run)
  <> TraceKeyType.TRACEBACK ->
  In entry (SnapshotRun.top_stats run) ->
  exists name,
    In name (ProfileRunSettings.func_file_names (SnapshotRun.settings run))
    /\ fnmatch (entry_file entry) name = true.
Proof.
  intros Hmode Hnames Hkey Hentry.
  assert (Hstat : In (StatisticRun.statistic entry)
                     (SnapshotRun.grouped_statistics run)).
  { apply (in_map StatisticRun.statistic) in Hentry.
    unfold SnapshotRun.top_stats in Hentry.
    rewrite entries_statistics in Hentry.
    rewrite <- (slice_partition (SnapshotRun.grouped_statistics run)
                  (ProfileRunSettings.limit (SnapshotRun.settings run))).
    apply in_or_app. now left. }
  unfold SnapshotRun.grouped_statistics, Snapshot.statistics in Hstat.
  rewrite sort_desc_In in Hstat.
  apply group_by_origin in Hstat. destruct Hstat as (trace & Htrace & Htb).
  rewrite (exclusive_filtered_traces run Hmode Hnames) in Htrace.
  cbn [Snapshot.traces] in Htrace.
  rewrite filter_In, existsb_exists in Htrace.
  destruct Htrace as (_ & name & Hname & Hmatch).
  exists name. split; [exact Hname|].
  unfold entry_file. rewrite Htb, first_frame_of_group by exact Hkey.
  exact Hmatch.
Qed.
End EntryValues.

Lemma enumerate_from_nth (A : Type) (k : Z) (xs : list A) (i : nat) :
  nth_error (enumerate_from k xs) i
  = option_map (fun x => (k + Z.of_nat i, x)) (nth_error xs i).
Proof.
  revert k i. induction xs as [|x rest IH]; intros k [|i]; simpl; try reflexivity.
  - now rewrite Z.add_0_r.
  - rewrite IH. destruct (nth_error rest i); simpl; [|reflexivity].
    do 2 f_equal. lia.
Qed.

Lemma firstn_nth (A : Type) (n i : nat) (xs : list A) (x : A) :
  nth_error (firstn n xs) i = Some x -> nth_error xs i = Some x.
Proof.
  revert i xs. induction n as [|n IH]; intros i [|y rest]; simpl;
    try (destruct i; discriminate).
  destruct i as [|i]; simpl; [trivial|apply IH].
Qed.

Section TopRanks.
Context {R : Runtime}.

(** X9: the entry at index [i] of [top_stats] has rank [i + 1] and stands for
    the group at index [i] of the grouped statistics, the [i + 1]-th
    largest. *)
Theorem top_entry_rank_and_group (run : SnapshotRun.t) (i : nat)
    (entry : StatisticRun.t) :
  nth_error (SnapshotRun.top_stats run) i = Some entry ->
  StatisticRun.position entry = Z.of_nat i + 1
  /\ nth_error (SnapshotRun.grouped_statistics run) i
     = Some (StatisticRun.statistic entry).
Proof.
  unfold SnapshotRun.top_stats, enumerate.
  rewrite nth_error_map, enumerate_from_nth.
  destruct (nth_error (slice_to _ _) i) as [stat|] eqn:Hnth; [|discriminate].
  simpl. intros [= <-]. split; [reflexivity|].
  simpl. exact (firstn_nth _ _ _ Hnth).
Qed.
End TopRanks.

(** X9 at a concrete input. *)
Lemma top_entry_rank_and_group_witness :
  StatisticRun.position Sample.largest_entry = Z.of_nat 0 + 1
  /\ nth_error (SnapshotRun.grouped_statistics (R := Sample.runtime)
                                                Sample.two_groups) 0
     = Some (StatisticRun.statistic Sample.largest_entry).
Proof.
  apply (@top_entry_rank_and_group Sample.runtime Sample.two_groups 0
                                   Sample.largest_entry).
  reflexivity.
Defined.

(* ================================================================== *)
(** ** Views of a comparison *)
(* ================================================================== *)

Section DiffEntries.
Context {R : Runtime}.

Lemma diff_entries_statistics (stats : list StatisticDiff.t) :
  map StatisticDiffRun.statistic
      (map (fun '(i, stat) => StatisticDiffRun.init i stat) (enumerate stats))
  = stats.
Proof.
  rewrite map_map. unfold enumerate.
  rewrite <- (enumerate_from_values 0 stats) at 2.
  apply map_ext. now intros [i stat].
Qed.

Lemma diff_entries_ranks (stats : list StatisticDiff.t) :
  map StatisticDiffRun.position
      (map (fun '(i, stat) => StatisticDiffRun.init i stat) (enumerate stats))
  = range 1 (Z.of_nat (List.length stats) + 1).
Proof.
  unfold enumerate. rewrite map_map.
  transitivity (map (fun i => i + 1) (map fst (enumerate_from 0 stats))).
  - rewrite map_map. apply map_ext. now intros [i stat].
  - rewrite enumerate_from_indices, range_shift. reflexivity.
Qed.

Lemma diff_entries_length (stats : list StatisticDiff.t) :
  List.length
    (map (fun '(i, stat) => StatisticDiffRun.init i stat) (enumerate stats))
  = List.length stats.
Proof. unfold enumerate. now rewrite length_map, enumerate_from_length. Qed.

(** X10: the two lists of a comparison split its differences at [limit], for
    every integer limit: the statistics of [top_stats] followed by those of
    [remaining_stats] are the differences, in order, and the top entries
    are ranked 1, 2, ... *)
Theorem diff_split_is_partition (comparison : SnapshotDiffRun.t) :
  map StatisticDiffRun.statistic (SnapshotDiffRun.top_stats comparison)
  ++ map StatisticDiffRun.statistic (SnapshotDiffRun.remaining_stats comparison)
  = SnapshotDiffRun.diff comparison
  /\ map StatisticDiffRun.position (SnapshotDiffRun.top_stats comparison)
     = range 1 (Z.of_nat (List.length (SnapshotDiffRun.top_stats comparison)) + 1).
Proof.
  unfold SnapshotDiffRun.top_stats, SnapshotDiffRun.remaining_stats.
  rewrite !diff_entries_statistics, diff_entries_ranks, diff_entries_length.
  split; [apply slice_partition|reflexivity].
Qed.

(** X11: whatever [limit] the settings carry, every comparison of a report is
    cut at 10: its limit is 10 and its top list has at most 10 entries. *)
Theorem comparisons_cut_at_ten (report : ProfileRun.t)
    (all : list SnapshotDiffRun.t) (comparison : SnapshotDiffRun.t) :
  ProfileRun.comparisons report = inr all ->
  In comparison all ->
  SnapshotDiffRun.limit comparison = 10
  /\ (List.length (SnapshotDiffRun.top_stats comparison) <= 10)%nat.
Proof.
  intros Hall Hin.
  rewrite comparisons_adjacent in Hall. injection Hall as <-.
  apply in_map_iff in Hin. destruct Hin as ([first second] & <- & _).
  split; [reflexivity|].
  unfold SnapshotDiffRun.top_stats. rewrite diff_entries_length.
  unfold slice_to. rewrite length_firstn.
  cbn [ProfileRun.__compare SnapshotDiffRun.init SnapshotDiffRun.limit
       ProfileRunSettings.default].
  unfold slice_bound. cbn [Z.ltb Z.compare]. lia.
Qed.

(** X12: the entries of a comparison of two runs never go up in the absolute
    value of their size difference. *)
Theorem comparison_entries_ordered (first second : SnapshotRun.t) :
  nonincreasing
    (map (fun entry => Z.abs (entry_size_diff entry))
         (SnapshotDiffRun.top_stats (ProfileRun.__compare first second)
          ++ SnapshotDiffRun.remaining_stats (ProfileRun.__compare first second))).
Proof.
  unfold entry_size_diff.
  rewrite <- (map_map StatisticDiffRun.statistic
                      (fun stat => Z.abs (StatisticDiff.size_diff stat))).
  rewrite map_app.
  unfold SnapshotDiffRun.top_stats, SnapshotDiffRun.remaining_stats.
  rewrite !diff_entries_statistics, slice_partition.
  cbn [ProfileRun.__compare SnapshotDiffRun.init SnapshotDiffRun.diff].
  unfold Snapshot.compare_to.
  apply sort_desc_nonincreasing.
  - exact StatisticDiff_compare_lt.
  - exact StatisticDiff_compare_ge.
Qed.
End DiffEntries.

(* ================================================================== *)
(** ** Groups of only one of two compared runs *)
(* ================================================================== *)

Lemma pop_missing (tb : Traceback.t) (group : list Statistic.t) :
  (forall stat, In stat group ->
                group_key stat <> ne_list (Traceback.frames tb)) ->
  Snapshot.pop tb group = (None, group).
Proof.
  induction group as [|s rest IH]; intros Hnone; simpl; [reflexivity|].
  destruct (Traceback.eqb (Statistic.traceback s) tb) eqn:Heq.
  - apply eqb_group_key in Heq. elim (Hnone s); [now left|exact Heq].
  - rewrite IH; [reflexivity|]. intros stat Hin. apply Hnone. now right.
Qed.

Lemma compare_new_only_new (new_group : list Statistic.t) :
  forall (old_group : list Statistic.t) (a : Statistic.t),
    In a new_group ->
    (forall b, In b old_group -> group_key b <> group_key a) ->
    In (StatisticDiff.Make (Statistic.traceback a)
          (Statistic.size a) (Statistic.size a)
          (Statistic.count a) (Statistic.count a))
       (fst (Snapshot.compare_new old_group new_group)).
Proof.
  induction new_group as [|s rest IH]; intros old_group a Ha Hnone;
    [destruct Ha|].
  simpl.
  destruct (Snapshot.pop (Statistic.traceback s) old_group)
    as [previous old_left] eqn:Hpop.
  destruct (Snapshot.compare_new old_left rest) as [entries old_rest] eqn:Hcmp.
  simpl. destruct Ha as [->|Ha].
  - left. rewrite pop_missing in Hpop by exact Hnone.
    injection Hpop as <- _. reflexivity.
  - right.
    assert (Hleft : forall b, In b old_left -> group_key b <> group_key a).
    { intros b Hb. apply Hnone.
      apply (@pop_subset (Statistic.traceback s) old_group).
      now rewrite Hpop. }
    specialize (IH old_left a Ha Hleft). now rewrite Hcmp in IH.
Qed.

Lemma compare_new_left (new_group : list Statistic.t) :
  forall (old_group : list Statistic.t) (b : Statistic.t),
    In b old_group ->
    (forall a, In a new_group -> group_key a <> group_key b) ->
    In b (snd (Snapshot.compare_new old_group new_group)).
Proof.
  induction new_group as [|s rest IH]; intros old_group b Hb Hnone;
    [exact Hb|].
  simpl.
  destruct (Snapshot.pop (Statistic.traceback s) old_group)
    as [previous old_left] eqn:Hpop.
  destruct (Snapshot.compare_new old_left rest) as [entries old_rest] eqn:Hcmp.
  simpl.
  assert (Hkept : In b old_left).
  { assert (Hother : group_key b
                     <> ne_list (Traceback.frames (Statistic.traceback s))).
    { intros Heq. apply (Hnone s); [now left|]. now rewrite Heq. }
    assert (Hin := @pop_keeps (Statistic.traceback s) _ _ Hb Hother).
    now rewrite Hpop in Hin. }
  assert (Hrest : forall a, In a rest -> group_key a <> group_key b).
  { intros a Ha. apply Hnone. now right. }
  specialize (IH old_left b Hkept Hrest). now rewrite Hcmp in IH.
Qed.

Section OneSided.
Context {R : Runtime}.

(** X13: a group that only the second of two compared runs has, memory
    allocated between them, is reported with size 0 and with its size
    negated as the difference. *)
Theorem group_of_second_run_only (first second : SnapshotRun.t)
    (b : Statistic.t) :
  In b (Snapshot.statistics
          (SnapshotRun.filtered_snapshot second)
          (TraceKeyType.value
             (ProfileRunSettings.key_type (SnapshotRun.settings first)))) ->
  (forall a,
     In a (Snapshot.statistics
             (SnapshotRun.filtered_snapshot first)
             (TraceKeyType.value
                (ProfileRunSettings.key_type (SnapshotRun.settings first)))) ->
     group_key a <> group_key b) ->
  In (StatisticDiff.Make (Statistic.traceback b)
        0 (- Statistic.size b) 0 (- Statistic.count b))
     (SnapshotDiffRun.diff (ProfileRun.__compare first second)).
Proof.
  intros Hb Hnone.
  cbn [ProfileRun.__compare SnapshotDiffRun.init SnapshotDiffRun.diff].
  unfold Snapshot.compare_to, Snapshot._compare_grouped_stats.
  unfold Snapshot.statistics in Hb, Hnone.
  rewrite sort_desc_In in Hb. rewrite sort_desc_In.
  assert (Hleft := @compare_new_left _ _ b Hb
            (fun a Ha => Hnone a (proj2 (sort_desc_In _ a _) Ha))).
  destruct (Snapshot.compare_new _ _) as [entries old_left].
  apply in_or_app. right.
  apply in_map_iff. exists b. split; [reflexivity|exact Hleft].
Qed.

(** X14: a group that only the first of two compared runs has, memory released
    between them, is reported with its size as the difference. *)
Theorem group_of_first_run_only (first second : SnapshotRun.t)
    (a : Statistic.t) :
  In a (Snapshot.statistics
          (SnapshotRun.filtered_snapshot first)
          (TraceKeyType.value
             (ProfileRunSettings.key_type (SnapshotRun.settings first)))) ->
  (forall b,
     In b (Snapshot.statistics
             (SnapshotRun.filtered_snapshot second)
             (TraceKeyType.value
                (ProfileRunSettings.key_type (SnapshotRun.settings first)))) ->
     group_key b <> group_key a) ->
  In (StatisticDiff.Make (Statistic.traceback a)
        (Statistic.size a) (Statistic.size a)
        (Statistic.count a) (Statistic.count a))
     (SnapshotDiffRun.diff (ProfileRun.__compare first second)).
Proof.
  intros Ha Hnone.
  cbn [ProfileRun.__compare SnapshotDiffRun.init SnapshotDiffRun.diff].
  unfold Snapshot.compare_to, Snapshot._compare_grouped_stats.
  unfold Snapshot.statistics in Ha, Hnone.
  rewrite sort_desc_In in Ha. rewrite sort_desc_In.
  assert (Hnew := @compare_new_only_new _ _ a Ha
            (fun b Hb => Hnone b (proj2 (sort_desc_In _ b _) Hb))).
  destruct (Snapshot.compare_new _ _) as [entries old_left].
  apply in_or_app. now left.
Qed.
End OneSided.

(* ================================================================== *)
(** ** The totals of a comparison *)
(* ================================================================== *)

Lemma pop_sum (tb : Traceback.t) (group : list Statistic.t) :
  sum (map Statistic.size group)
  = match fst (Snapshot.pop tb group) with
    | Some found => Statistic.size found
    | None => 0
    end
    + sum (map Statistic.size (snd (Snapshot.pop tb group))).
Proof.
  induction group as [|s rest IH]; simpl; [reflexivity|].
  destruct (Traceback.eqb (Statistic.traceback s) tb).
  - simpl. now rewrite sum_cons.
  - destruct (Snapshot.pop tb rest) as [found rest']. simpl in *.
    rewrite !sum_cons, IH. lia.
Qed.

Lemma compare_new_sum (new_group : list Statistic.t) :
  forall old_group : list Statistic.t,
    sum (map StatisticDiff.size_diff
             (fst (Snapshot.compare_new old_group new_group)))
    + sum (map Statistic.size old_group)
    = sum (map Statistic.size new_group)
      + sum (map Statistic.size
                 (snd (Snapshot.compare_new old_group new_group))).
Proof.
  induction new_group as [|s rest IH]; intros old_group; simpl.
  - change (sum []) with 0. lia.
  - assert (Hpop := pop_sum (Statistic.traceback s) old_group).
    destruct (Snapshot.pop (Statistic.traceback s) old_group)
      as [previous old_left].
    specialize (IH old_left).
    destruct (Snapshot.compare_new old_left rest) as [entries old_rest].
    simpl in *. rewrite !sum_cons.
    destruct previous as [prev|]; simpl; lia.
Qed.

Lemma compare_to_sum (new_snapshot old_snapshot : Snapshot.t) (key : key_type) :
  sum (map StatisticDiff.size_diff
           (Snapshot.compare_to new_snapshot old_snapshot key))
  = sum (map Trace.size (Snapshot.traces new_snapshot))
    - sum (map Trace.size (Snapshot.traces old_snapshot)).
Proof.
  unfold Snapshot.compare_to, Snapshot._compare_grouped_stats.
  rewrite sort_desc_sum.
  assert (Hsum := compare_new_sum (Snapshot._group_by new_snapshot key)
                                  (Snapshot._group_by old_snapshot key)).
  destruct (Snapshot.compare_new _ _) as [entries old_left].
  simpl in Hsum. rewrite !group_by_sum in Hsum.
  rewrite map_app, sum_app, map_map. simpl.
  assert (Hleft : sum (map (fun stat => - Statistic.size stat) old_left)
                  = - sum (map Statistic.size old_left)).
  { clear. induction old_left as [|s rest IH]; simpl; [reflexivity|].
    rewrite !sum_cons, IH. lia. }
  rewrite Hleft. lia.
Qed.

Section ComparisonTotals.
Context {R : Runtime}.

(** X15: the differences summed up for [Top Total Size] and for [Remaining
    Total Size] of the comparison of two runs add up to the traced size of
    the first run minus that of the second, both after filtering. *)
Theorem comparison_totals_net_change (first second : SnapshotRun.t) :
  sum (map entry_size_diff
           (SnapshotDiffRun.top_stats (ProfileRun.__compare first second)))
  + sum (map entry_size_diff
             (SnapshotDiffRun.remaining_stats (ProfileRun.__compare first second)))
  = sum (map Trace.size
             (Snapshot.traces (SnapshotRun.filtered_snapshot first)))
    - sum (map Trace.size
               (Snapshot.traces (SnapshotRun.filtered_snapshot second))).
Proof.
  unfold entry_size_diff.
  rewrite <- !(map_map StatisticDiffRun.statistic StatisticDiff.size_diff).
  rewrite <- sum_app, <- map_app.
  unfold SnapshotDiffRun.top_stats, SnapshotDiffRun.remaining_stats.
  rewrite !diff_entries_statistics, slice_partition.
  cbn [ProfileRun.__compare SnapshotDiffRun.init SnapshotDiffRun.diff].
  apply compare_to_sum.
Qed.
End ComparisonTotals.

(* ================================================================== *)
(** ** What a run returns and how it fails *)
(* ================================================================== *)

Section Outcomes.
Variable settings : ProfileRunSettings.t.

(** One round of the loop: a call, then a snapshot if the tracer is still
    on. *)
Lemma capture_round (i : Z) (rest : list Z) (runs : list SnapshotRun.t)
    (m : Machine) :
  for_each (i :: rest)
    (fun i snapshot_runs =>
       invoke (ProfileRunSettings.func settings) ;;;
       taken <~ tracemalloc_take_snapshot ;;
       ret (snapshot_runs ++ [SnapshotRun.Make i taken settings]))
    runs m
  = match call (ProfileRunSettings.func settings) (world m) with
    | inl e => inl e
    | inr w =>
        if tracing w then
          for_each rest
            (fun i snapshot_runs =>
               invoke (ProfileRunSettings.func settings) ;;;
               taken <~ tracemalloc_take_snapshot ;;
               ret (snapshot_runs ++ [SnapshotRun.Make i taken settings]))
            (runs ++ [SnapshotRun.Make i
                        (Snapshot.Make (traced w) (nframe w)) settings])
            (MakeMachine w
               ((log m ++ [Called])
                ++ [Snapshotted (Snapshot.Make (traced w) (nframe w))]))
        else inl RuntimeError
    end.
Proof.
  cbn [for_each].
  unfold bindM, invoke, tracemalloc_take_snapshot, take_snapshot, ret.
  destruct (call (ProfileRunSettings.func settings) (world m)) as [e|w];
    [reflexivity|].
  cbn [bind world log]. destruct (tracing w); reflexivity.
Qed.

(** Whatever the loop returns extends the runs it started from by one run
    per index, all with the settings of the run. *)
Lemma capture_loop_result (indices : list Z) :
  forall (runs runs' : list SnapshotRun.t) (m m' : Machine),
    for_each indices
      (fun i snapshot_runs =>
         invoke (ProfileRunSettings.func settings) ;;;
         taken <~ tracemalloc_take_snapshot ;;
         ret (snapshot_runs ++ [SnapshotRun.Make i taken settings]))
      runs m
    = inr (runs', m') ->
    exists later,
      runs' = runs ++ later
      /\ map SnapshotRun.iteration later = indices
      /\ Forall (fun run => SnapshotRun.settings run = settings) later.
Proof.
  induction indices as [|i rest IH]; intros runs runs' m m' Hloop.
  - injection Hloop as <- <-. exists []. now rewrite app_nil_r.
  - rewrite capture_round in Hloop.
    destruct (call (ProfileRunSettings.func settings) (world m)) as [e|w];
      [discriminate|].
    destruct (tracing w); [|discriminate].
    apply IH in Hloop. destruct Hloop as (later & -> & Hiter & Hall).
    eexists (_ :: later). rewrite <- app_assoc. split; [reflexivity|].
    split; [simpl; now rewrite Hiter|].
    constructor; [reflexivity|exact Hall].
Qed.

(** When the loop raises, the profiled function raised, or it returned
    with the tracer turned off. *)
Lemma capture_loop_failure (indices : list Z) :
  forall (runs : list SnapshotRun.t) (m : Machine) (e : exn),
    for_each indices
      (fun i snapshot_runs =>
         invoke (ProfileRunSettings.func settings) ;;;
         taken <~ tracemalloc_take_snapshot ;;
         ret (snapshot_runs ++ [SnapshotRun.Make i taken settings]))
      runs m
    = inl e ->
    (exists w, call (ProfileRunSettings.func settings) w = inl e)
    \/ (e = RuntimeError
        /\ exists w w', call (ProfileRunSettings.func settings) w = inr w'
                        /\ tracing w' = false).
Proof.
  induction indices as [|i rest IH]; intros runs m e Hloop; [discriminate|].
  rewrite capture_round in Hloop.
  destruct (call (ProfileRunSettings.func settings) (world m)) as [e'|w] eqn:Hcall.
  - injection Hloop as <-. left. now exists (world m).
  - destruct (tracing w) eqn:Hon.
    + now apply IH in Hloop.
    + injection Hloop as <-. right. split; [reflexivity|].
      now exists (world m), w.
Qed.
End Outcomes.

Lemma profile_func_loop (settings : ProfileRunSettings.t) (m : Machine) :
  profile_func settings m
  = match
      for_each (range 1 (ProfileRunSettings.run_count settings + 1))
        (fun i snapshot_runs =>
           invoke (ProfileRunSettings.func settings) ;;;
           taken <~ tracemalloc_take_snapshot ;;
           ret (snapshot_runs ++ [SnapshotRun.Make i taken settings]))
        [SnapshotRun.Make 0
           (Snapshot.Make (traced (start (world m))) (nframe (start (world m))))
           settings]
        (MakeMachine (start (world m))
           ((log m ++ [Started])
            ++ [Snapshotted
                  (Snapshot.Make (traced (start (world m)))
                                 (nframe (start (world m))))]))
    with
    | inl e => inl e
    | inr (snapshot_runs, m1) =>
        inr (ProfileRun.Make snapshot_runs
               (ProfileRunSettings.func_file_names settings)
               (repr (ProfileRunSettings.func settings)),
             MakeMachine (stop (world m1)) (log m1 ++ [Stopped]))
    end.
Proof.
  unfold profile_func.
  rewrite (bindM_returns tracemalloc_start _ m
             (a := tt)
             (m' := MakeMachine (start (world m)) (log m ++ [Started])))
    by reflexivity.
  rewrite (bindM_returns tracemalloc_take_snapshot _ _
             (a := Snapshot.Make (traced (start (world m)))
                                 (nframe (start (world m))))
             (m' := MakeMachine (start (world m))
                      ((log m ++ [Started])
                       ++ [Snapshotted
                             (Snapshot.Make (traced (start (world m)))
                                            (nframe (start (world m))))])))
    by (unfold tracemalloc_take_snapshot, take_snapshot; cbn [world log];
        rewrite start_tracing; reflexivity).
  unfold bindM at 1.
  destruct (for_each _ _ _ _) as [e|[snapshot_runs m1]]; reflexivity.
Qed.

Lemma range_from_zero (n : Z) :
  range 0 (Z.max 0 n + 1) = 0 :: range 1 (n + 1).
Proof.
  rewrite (@range_cons 0) by lia. f_equal. unfold range.
  replace (Z.to_nat (Z.max 0 n + 1 - (0 + 1))) with (Z.to_nat (n + 1 - 1)) by lia.
  reflexivity.
Qed.

Section Returned.
Context {R : Runtime}.

(** The shape of every report [profile_func] returns. *)
Lemma profile_func_result (settings : ProfileRunSettings.t) (m m' : Machine)
    (report : ProfileRun.t) :
  profile_func settings m = inr (report, m') ->
  exists first later m1,
    report = ProfileRun.Make (SnapshotRun.Make 0 first settings :: later)
               (ProfileRunSettings.func_file_names settings)
               (repr (ProfileRunSettings.func settings))
    /\ m' = MakeMachine (stop (world m1)) (log m1 ++ [Stopped])
    /\ map SnapshotRun.iteration later
       = range 1 (ProfileRunSettings.run_count settings + 1)
    /\ Forall (fun run => SnapshotRun.settings run = settings) later.
Proof.
  intros Hrun. rewrite profile_func_loop in Hrun.
  destruct (for_each _ _ _ _) as [e|[snapshot_runs m1]] eqn:Hloop;
    [discriminate|].
  injection Hrun as <- <-.
  apply capture_loop_result in Hloop.
  destruct Hloop as (later & -> & Hiter & Hall).
  now exists (Snapshot.Make (traced (start (world m))) (nframe (start (world m)))),
    later, m1.
Qed.

(** X16: every report that [profile_func] returns has the run of iteration 0
    followed by one run per iteration, [max(0, run_count) + 1] in all,
    each carrying the settings of the call; it carries their file names
    and the text of their function; the tracer is left stopped, with no
    trace; and rendering the report gives a text, it does not raise. *)
Theorem returned_report_is_complete (settings : ProfileRunSettings.t)
    (m m' : Machine) (report : ProfileRun.t) :
  profile_func settings m = inr (report, m') ->
  map SnapshotRun.iteration (ProfileRun.snapshot_runs report)
  = range 0 (Z.max 0 (ProfileRunSettings.run_count settings) + 1)
  /\ Forall (fun run => SnapshotRun.settings run = settings)
            (ProfileRun.snapshot_runs report)
  /\ ProfileRun.func_file_names report
     = ProfileRunSettings.func_file_names settings
  /\ ProfileRun.func_name report = repr (ProfileRunSettings.func settings)
  /\ tracing (world m') = false
  /\ traced (world m') = []
  /\ exists text, ProfileRun.str report = inr text.
Proof.
  intros Hrun.
  apply profile_func_result in Hrun.
  destruct Hrun as (first & later & m1 & -> & -> & Hiter & Hall).
  cbn [ProfileRun.snapshot_runs ProfileRun.func_file_names ProfileRun.func_name
       world stop tracing traced].
  split; [simpl map; now rewrite Hiter, range_from_zero|].
  split; [constructor; [reflexivity|exact Hall]|].
  repeat (split; [reflexivity|]).
  erewrite report_layout by reflexivity. eexists. reflexivity.
Qed.

(** X17: [profile_func] raises nothing of its own: when it raises, the
    profiled function raised that exception, or the exception is the
    [RuntimeError] of a snapshot taken after the profiled function turned
    the tracer off. *)
Theorem failures_come_from_function (settings : ProfileRunSettings.t)
    (m : Machine) (e : exn) :
  profile_func settings m = inl e ->
  (exists w, call (ProfileRunSettings.func settings) w = inl e)
  \/ (e = RuntimeError
      /\ exists w w', call (ProfileRunSettings.func settings) w = inr w'
                      /\ tracing w' = false).
Proof.
  intros Hrun. rewrite profile_func_loop in Hrun.
  destruct (for_each _ _ _ _) as [e'|[snapshot_runs m1]] eqn:Hloop;
    [|discriminate].
  injection Hrun as ->.
  exact (capture_loop_failure _ _ _ _ Hloop).
Qed.

(** X18: with at least one iteration, an exception of the first call of the
    profiled function is what [profile_func] raises: it is not caught, no
    report is returned. *)
Theorem first_call_failure_propagates (settings : ProfileRunSettings.t)
    (m : Machine) (e : exn) :
  1 <= ProfileRunSettings.run_count settings ->
  call (ProfileRunSettings.func settings) (start (world m)) = inl e ->
  profile_func settings m = inl e.
Proof.
  intros Hcount Hcall. rewrite profile_func_loop.
  rewrite (@range_cons 1) by lia.
  rewrite capture_round. cbn [world]. now rewrite Hcall.
Qed.

(** X19: rendering fails exactly for a report without snapshot runs, with
    [IndexError]; every other report has a text. *)
Theorem rendering_needs_a_run (report : ProfileRun.t) :
  (ProfileRun.snapshot_runs report = [] ->
   ProfileRun.str report = inl IndexError)
  /\ (ProfileRun.snapshot_runs report <> [] ->
      exists text, ProfileRun.str report = inr text).
Proof.
  split.
  - intros Hnone. unfold ProfileRun.str. now rewrite Hnone.
  - intros Hsome.
    destruct (ProfileRun.snapshot_runs report) as [|first later] eqn:Hruns;
      [contradiction|].
    erewrite report_layout by exact Hruns. eexists. reflexivity.
Qed.
End Returned.

(* ================================================================== *)
(** ** The script [src/profile.py] *)
(* ================================================================== *)

Section Script.
Context {R : Runtime}.

(** A profiled function that returns lets the run return, with the events
    of its captures between the start and the stop of the tracer. *)
Lemma profile_func_returns (settings : ProfileRunSettings.t) (m : Machine) :
  well_behaved (ProfileRunSettings.func settings) ->
  exists report m',
    profile_func settings m = inr (report, m')
    /\ log m'
       = log m ++ Started :: capture_events (ProfileRun.snapshot_runs report)
               ++ [Stopped].
Proof.
  intros Hfunc. rewrite profile_func_loop.
  destruct (capture_loop settings
              (range 1 (ProfileRunSettings.run_count settings + 1)) Hfunc
              [SnapshotRun.Make 0
                 (Snapshot.Make (traced (start (world m)))
                                (nframe (start (world m))))
                 settings]
              (MakeMachine (start (world m))
                 ((log m ++ [Started])
                  ++ [Snapshotted
                        (Snapshot.Make (traced (start (world m)))
                                       (nframe (start (world m))))]))
              (start_tracing (world m)))
    as (later & m1 & Hloop & _ & Hlog & _).
  rewrite Hloop. do 2 eexists. split; [reflexivity|].
  cbn [log ProfileRun.snapshot_runs]. rewrite Hlog. cbn [log].
  simpl. now rewrite <- !app_assoc.
Qed.

(** X20: the script, given a function that returns: it profiles with the
    defaults of the settings, so the function is called 3 times, the
    report has the runs of iterations 0 to 3, all with the exclusive filter
    on the two given files, groups by line and a limit of 10, and the text
    handed to [print] is the rendering of that report; the tracer is left
    stopped. *)
Theorem script_prints_report (get_letters_and_numbers : Callable)
    (letters_file numbers_file : string) (m : Machine) :
  well_behaved get_letters_and_numbers ->
  exists text m' report events,
    main get_letters_and_numbers letters_file numbers_file m = inr (text, m')
    /\ ProfileRun.str report = inr text
    /\ map SnapshotRun.iteration (ProfileRun.snapshot_runs report) = [0; 1; 2; 3]
    /\ Forall
         (fun run =>
            SnapshotRun.settings run
            = ProfileRunSettings.Make get_letters_and_numbers
                [letters_file; numbers_file] 3 TraceKeyType.LINE_NUM 10 true)
         (ProfileRun.snapshot_runs report)
    /\ log m' = log m ++ events
    /\ events
       = Started :: capture_events (ProfileRun.snapshot_runs report) ++ [Stopped]
    /\ calls events = 3%nat
    /\ tracing (world m') = false.
Proof.
  intros Hfunc.
  set (settings := ProfileRunSettings.Make get_letters_and_numbers
                     [letters_file; numbers_file] 3 TraceKeyType.LINE_NUM 10 true).
  destruct (profile_func_returns settings m Hfunc) as (report & m' & Hrun & Hlog).
  assert (Hshape := Hrun). apply profile_func_result in Hshape.
  destruct Hshape as (first & later & m1 & Hreport & Hm' & Hiter & Hall).
  assert (Htext : exists text, ProfileRun.str report = inr text).
  { rewrite Hreport. erewrite report_layout by reflexivity.
    eexists. reflexivity. }
  destruct Htext as (text & Htext).
  exists text, m', report,
    (Started :: capture_events (ProfileRun.snapshot_runs report) ++ [Stopped]).
  split.
  { unfold main.
    rewrite (bindM_returns _ _ m (a := settings) (m' := m)) by reflexivity.
    rewrite (bindM_returns _ _ m Hrun).
    unfold lift. now rewrite Htext. }
  split; [exact Htext|].
  split; [rewrite Hreport; cbn [ProfileRun.snapshot_runs map SnapshotRun.iteration];
          rewrite Hiter; reflexivity|].
  split; [rewrite Hreport; constructor; [reflexivity|exact Hall]|].
  split; [exact Hlog|].
  split; [reflexivity|].
  split.
  - rewrite Hreport. cbn [ProfileRun.snapshot_runs capture_events].
    unfold calls. cbn [filter is_call app]. rewrite filter_app, length_app.
    fold (calls (flat_map
            (fun run => [Called; Snapshotted (SnapshotRun.snapshot run)]) later)).
    rewrite calls_capture. cbn [filter is_call List.length].
    rewrite <- (length_map SnapshotRun.iteration), Hiter. reflexivity.
  - rewrite Hm'. reflexivity.
Qed.
End Script.

(* ================================================================== *)
(** ** The properties above at concrete inputs *)
(* ================================================================== *)

(** X1 at a concrete input. *)
Lemma exclusive_filter_keeps_named_files_witness :
  Snapshot.traces
    (SnapshotRun.filtered_snapshot (R := Sample.runtime) Sample.two_groups)
  = filter
      (fun trace =>
         existsb (fun name => fnmatch (Runtime := Sample.runtime)
                                      (trace_file trace) name)
                 (ProfileRunSettings.func_file_names
                    (SnapshotRun.settings Sample.two_groups)))
      (Snapshot.traces (SnapshotRun.snapshot Sample.two_groups))
  /\ Snapshot.traceback_limit
       (SnapshotRun.filtered_snapshot (R := Sample.runtime) Sample.two_groups)
     = Snapshot.traceback_limit (SnapshotRun.snapshot Sample.two_groups)
  /\ forall trace,
       In trace
          (Snapshot.traces
             (SnapshotRun.filtered_snapshot (R := Sample.runtime)
                                            Sample.two_groups))
       <-> In trace (Snapshot.traces (SnapshotRun.snapshot Sample.two_groups))
           /\ exists name,
                In name (ProfileRunSettings.func_file_names
                           (SnapshotRun.settings Sample.two_groups))
                /\ fnmatch (Runtime := Sample.runtime) (trace_file trace) name
                   = true.
Proof.
  apply (exclusive_filter_keeps_named_files (R := Sample.runtime)
                                            Sample.two_groups).
  - reflexivity.
  - simpl. discriminate.
Defined.

(** X2 at a concrete input. *)
Lemma exclusive_filter_without_names_keeps_all_witness :
  SnapshotRun.filtered_snapshot (R := Sample.runtime) Sample.no_names
  = SnapshotRun.snapshot Sample.no_names.
Proof.
  apply (exclusive_filter_without_names_keeps_all (R := Sample.runtime)
                                                  Sample.no_names);
    reflexivity.
Defined.

(** X3 at a concrete input. *)
Lemma inclusive_filter_drops_tracer_frames_witness :
  In Sample.unknown_block
     (Snapshot.traces
        (SnapshotRun.filtered_snapshot (R := Sample.runtime) Sample.system_wide))
  <-> In Sample.unknown_block
         (Snapshot.traces (SnapshotRun.snapshot Sample.system_wide))
      /\ fnmatch (Runtime := Sample.runtime)
                 (trace_file Sample.unknown_block)
                 (tracemalloc_file (Runtime := Sample.runtime)) = false
      /\ fnmatch (Runtime := Sample.runtime)
                 (trace_file Sample.unknown_block)
                 "<frozen importlib._bootstrap>" = false
      /\ fnmatch (Runtime := Sample.runtime)
                 (trace_file Sample.unknown_block) "<unknown>" = false.
Proof.
  apply (inclusive_filter_drops_tracer_frames (R := Sample.runtime)
                                              Sample.system_wide).
  reflexivity.
Defined.

(** X8 at a concrete input. *)
Lemma exclusive_entries_in_named_files_witness :
  exists name,
    In name (ProfileRunSettings.func_file_names
               (SnapshotRun.settings Sample.two_groups))
    /\ fnmatch (Runtime := Sample.runtime)
               (entry_file Sample.largest_entry) name = true.
Proof.
  apply (exclusive_entries_in_named_files (R := Sample.runtime)
                                          Sample.two_groups Sample.largest_entry).
  - reflexivity.
  - simpl. discriminate.
  - simpl. discriminate.
  - vm_compute. left. reflexivity.
Defined.

(** X11 at a concrete input. *)
Lemma comparisons_cut_at_ten_witness :
  SnapshotDiffRun.limit
    (ProfileRun.__compare (R := Sample.runtime)
                          Sample.before_grow Sample.after_grow) = 10
  /\ (List.length
        (SnapshotDiffRun.top_stats
           (ProfileRun.__compare (R := Sample.runtime)
                                 Sample.before_grow Sample.after_grow))
      <= 10)%nat.
Proof.
  apply (comparisons_cut_at_ten (R := Sample.runtime) Sample.grown
           (all := [ProfileRun.__compare (R := Sample.runtime)
                                         Sample.before_grow Sample.after_grow])).
  - reflexivity.
  - simpl. left. reflexivity.
Defined.

(** X21 at a concrete input. *)
Lemma comparisons_nth_witness :
  exists all,
    ProfileRun.comparisons (R := Sample.runtime) Sample.grown = inr all
    /\ nth_error all 0
       = Some (SnapshotDiffRun.Make
                 (SnapshotRun.iteration Sample.before_grow,
                  SnapshotRun.iteration Sample.after_grow)
                 (Snapshot.compare_to
                    (SnapshotRun.filtered_snapshot (R := Sample.runtime)
                                                   Sample.before_grow)
                    (SnapshotRun.filtered_snapshot (R := Sample.runtime)
                                                   Sample.after_grow)
                    (TraceKeyType.value
                       (ProfileRunSettings.key_type
                          (SnapshotRun.settings Sample.before_grow))))
                 10).
Proof.
  apply (comparisons_nth (R := Sample.runtime) Sample.grown 0); reflexivity.
Defined.

(** X22 at a concrete input. *)
Lemma compare_direction_witness :
  exists entry,
    In entry
       (SnapshotDiffRun.diff
          (ProfileRun.__compare (R := Sample.runtime)
                                Sample.before_grow Sample.after_grow))
    /\ StatisticDiff.traceback entry = Sample.work_line
    /\ StatisticDiff.size_diff entry = 1024 - 2048
    /\ (1024 < 2048 -> StatisticDiff.size_diff entry < 0).
Proof.
  apply (@compare_direction Sample.runtime
           Sample.before_grow Sample.after_grow
           (Statistic.Make Sample.work_line 1024 1)
           (Statistic.Make Sample.work_line 2048 2)).
  - vm_compute. left. reflexivity.
  - vm_compute. left. reflexivity.
  - reflexivity.
Defined.

(** X13 at a concrete input. *)
Lemma group_of_second_run_only_witness :
  In (StatisticDiff.Make Sample.work_line 0 (- 1024) 0 (- 1))
     (SnapshotDiffRun.diff
        (ProfileRun.__compare (R := Sample.runtime)
                              Sample.nothing_yet Sample.before_grow)).
Proof.
  apply (@group_of_second_run_only Sample.runtime
           Sample.nothing_yet Sample.before_grow
           (Statistic.Make Sample.work_line 1024 1)).
  - vm_compute. left. reflexivity.
  - intros a Ha. vm_compute in Ha. destruct Ha.
Defined.

(** X14 at a concrete input. *)
Lemma group_of_first_run_only_witness :
  In (StatisticDiff.Make Sample.work_line 1024 1024 1 1)
     (SnapshotDiffRun.diff
        (ProfileRun.__compare (R := Sample.runtime)
                              Sample.before_grow Sample.nothing_yet)).
Proof.
  apply (@group_of_first_run_only Sample.runtime
           Sample.before_grow Sample.nothing_yet
           (Statistic.Make Sample.work_line 1024 1)).
  - vm_compute. left. reflexivity.
  - intros b Hb. vm_compute in Hb. destruct Hb.
Defined.

(** X16 at a concrete input. *)
Lemma returned_report_is_complete_witness :
  exists report m',
    profile_func (Sample.settings 2 10) Sample.idle = inr (report, m')
    /\ map SnapshotRun.iteration (ProfileRun.snapshot_runs report)
       = range 0 (Z.max 0 2 + 1)
    /\ Forall (fun run => SnapshotRun.settings run = Sample.settings 2 10)
              (ProfileRun.snapshot_runs report)
    /\ ProfileRun.func_file_names report
       = ProfileRunSettings.func_file_names (Sample.settings 2 10)
    /\ ProfileRun.func_name report
       = repr (ProfileRunSettings.func (Sample.settings 2 10))
    /\ tracing (world m') = false
    /\ traced (world m') = []
    /\ exists text, ProfileRun.str (R := Sample.runtime) report = inr text.
Proof.
  do 2 eexists. split; [vm_compute; reflexivity|].
  apply (returned_report_is_complete (R := Sample.runtime)
           (Sample.settings 2 10) Sample.idle).
  reflexivity.
Defined.

(** X17 at a concrete input. *)
Lemma failures_come_from_function_witness :
  (exists w, call (ProfileRunSettings.func Sample.failing_settings) w
             = inl (Raised "boom"))
  \/ (Raised "boom" = RuntimeError
      /\ exists w w',
           call (ProfileRunSettings.func Sample.failing_settings) w = inr w'
           /\ tracing w' = false).
Proof.
  apply (failures_come_from_function Sample.failing_settings Sample.idle).
  reflexivity.
Defined.

(** X18 at a concrete input. *)
Lemma first_call_failure_propagates_witness :
  profile_func Sample.failing_settings Sample.idle = inl (Raised "boom").
Proof.
  apply (first_call_failure_propagates Sample.failing_settings Sample.idle).
  - simpl. lia.
  - reflexivity.
Defined.

(** X20 at a concrete input. *)
Lemma script_prints_report_witness :
  exists text m' report events,
    main (R := Sample.runtime) Sample.grow "letters.py"%string
         "numbers.py"%string Sample.idle
    = inr (text, m')
    /\ ProfileRun.str (R := Sample.runtime) report = inr text
    /\ map SnapshotRun.iteration (ProfileRun.snapshot_runs report) = [0; 1; 2; 3]
    /\ Forall
         (fun run =>
            SnapshotRun.settings run
            = ProfileRunSettings.Make Sample.grow
                ["letters.py"%string; "numbers.py"%string] 3
                TraceKeyType.LINE_NUM 10 true)
         (ProfileRun.snapshot_runs report)
    /\ log m' = log Sample.idle ++ events
    /\ events
       = Started :: capture_events (ProfileRun.snapshot_runs report) ++ [Stopped]
    /\ calls events = 3%nat
    /\ tracing (world m') = false.
Proof.
  apply (@script_prints_report Sample.runtime Sample.grow
           "letters.py"%string "numbers.py"%string Sample.idle).
  intros w Hon. eexists. split; [reflexivity|exact Hon].
Defined.
